(** * PM2.5 AQI calculator: a shallow embedding and its specification

    The development follows the computational modules of the
    application:

    - [aqi_calculator]   (src/aqi_calculator.py): the gravimetric
      concentration formula, the EPA breakpoint table, the index
      interpolation and the six-band category lookup;
    - [binary64]         (src/aqi_calculator.py again): the same three
      numeric functions on IEEE 754 binary64 values;
    - [report_generator] (src/report_generator.py): the synthetic monthly
      series, the seven-band colour and category lookups and the chart
      data of the report;
    - [report_generator_backup] (src/report_generator_backup.py): the
      category lookup that module ends up with;
    - [main] (src/main.py): the colour bar and the calculation handler of
      the application, as far as they compute, on binary64 values.

    Numbers.  Python's [int] is [Z].  Python's [float] has two readings.

    - In [aqi_calculator] a float is an exact rational [Q] and every
      operation is the exact one.  This reading carries the statements
      about the table, its rows and the decimal inputs of the
      specification; the rounding of each operation and the range of the
      format are outside it.
    - In [binary64] a float is a binary64 value, as CPython computes with:
      the kernel's primitive floats, whose operations round to nearest,
      ties to even, overflow to an infinity and underflow to a zero.  The
      statements about what the functions raise, about the sign of what
      they return and about the concentrations written with one decimal
      are made on this reading, which is also evaluated on the inputs of
      the statements made on the exact one.

    What both readings keep is what the program itself decides on: the
    division that raises on a zero divisor, [math.trunc] (towards zero)
    and the built-in [round] (to nearest, ties to even).

    Effects.  An exception is a [Raise] in the [result] monad.  The ambient
    generator behind [random.randint] is an explicit oracle threaded through
    the series generator; [datetime.now()] is a parameter.  The [print]
    calls of [calculate_aqi] write to the console only and are left out. *)

From Stdlib Require Import ZArith QArith Qround Lia Lqa List String Ascii Bool.
From Stdlib Require Import Floats.
From Stdlib Require Uint63.
Import ListNotations.

(* Decimal literals denote the nearest binary64 value, as in Python. *)
Set Warnings "-inexact-float".

Open Scope Z_scope.

(** ** Exceptions and partial results *)

Inductive exn : Type :=
| ZeroDivisionError
| OverflowError
| ValueError.

Inductive result (A : Type) : Type :=
| Ok (a : A)
| Raise (e : exn).

Arguments Ok {A} a.
Arguments Raise {A} e.

Definition bind {A B : Type} (m : result A) (k : A -> result B) : result B :=
  match m with
  | Ok a => k a
  | Raise e => Raise e
  end.

Notation "x <- m ;; k" := (bind m (fun x => k))
  (at level 61, m at next level, right associativity).

(** ** Python's numeric primitives on exact rationals *)

(** [x / y]: true division, raising on a zero divisor. *)
Definition py_div (x y : Q) : result Q :=
  if Qeq_bool y 0 then Raise ZeroDivisionError else Ok (x / y)%Q.

(** [math.trunc x]: the integer part, rounding towards zero. *)
Definition math_trunc (x : Q) : Z :=
  Z.quot (Qnum x) (Zpos (Qden x)).

(** [round x] with one argument: the nearest integer, a tie going to the
    even neighbour. *)
Definition py_round (x : Q) : Z :=
  let f := Qfloor x in
  match Z.compare (2 * (Qnum x mod Zpos (Qden x))) (Zpos (Qden x)) with
  | Lt => f
  | Gt => f + 1
  | Eq => if Z.even f then f else f + 1
  end.

(** [a < b] on rationals, as a boolean. *)
Definition Qlt_bool (a b : Q) : bool := negb (Qle_bool b a).

(** ** src/aqi_calculator.py *)

Module aqi_calculator.

(** RGBA colour tuples of the category lookup. *)
Definition rgba : Type := (Q * Q * Q * Q)%type.

Definition calculate_pm25_concentration
    (mass_initial mass_final flow_rate time_start time_stop : Q) : result Q :=
  if Qle_bool flow_rate 0 || Qle_bool time_stop time_start then Ok 0%Q
  else
    let mass_diff_mg := (mass_final - mass_initial)%Q in
    let volume_l := (flow_rate * (time_stop - time_start))%Q in
    volume_m3 <- py_div volume_l 1000 ;;
    concentration_mg_m3 <- py_div mass_diff_mg volume_m3 ;;
    let concentration_ug_m3 := (concentration_mg_m3 * 1000)%Q in
    Ok concentration_ug_m3.

(** The dictionary is iterated in insertion order, so it is kept as an
    association list. *)
Definition get_aqi_breakpoints : list ((Q * Q) * (Z * Z)) :=
  [ ((0.0,   12.0)%Q,  (0,   50));
    ((12.1,  35.4)%Q,  (51,  100));
    ((35.5,  55.4)%Q,  (101, 150));
    ((55.5,  150.4)%Q, (151, 200));
    ((150.5, 250.4)%Q, (201, 300));
    ((250.5, 350.4)%Q, (301, 400));
    ((350.5, 500.4)%Q, (401, 500)) ].

(** The [for] loop of [calculate_aqi]: [Ok (Some i)] when an iteration
    returns [i], [Ok None] when the loop runs off the end of the table. *)
Fixpoint scan_breakpoints (breakpoints : list ((Q * Q) * (Z * Z))) (c : Q)
    : result (option Z) :=
  match breakpoints with
  | [] => Ok None
  | ((bp_low, bp_high), (i_low, i_high)) :: rest =>
      if Qle_bool bp_low c && Qle_bool c bp_high then
        slope <- py_div (inject_Z (i_high - i_low)) (bp_high - bp_low)%Q ;;
        let aqi := (slope * (c - bp_low) + inject_Z i_low)%Q in
        let calculated_aqi := py_round aqi in
        Ok (Some calculated_aqi)
      else scan_breakpoints rest c
  end.

Definition calculate_aqi (pm25_concentration : Q) : result Z :=
  let breakpoints := get_aqi_breakpoints in
  c <- py_div (inject_Z (math_trunc (pm25_concentration * 10)%Q)) 10 ;;
  found <- scan_breakpoints breakpoints c ;;
  match found with
  | Some calculated_aqi => Ok calculated_aqi
  | None =>
      if Qlt_bool 500.4 c then Ok 500
      else Ok 0
  end.

Definition get_aqi_category (aqi : Z) : string * rgba :=
  if (0 <=? aqi) && (aqi <=? 50) then
    ("Good"%string, (0, 1, 0, 1)%Q)
  else if (51 <=? aqi) && (aqi <=? 100) then
    ("Moderate"%string, (1, 1, 0, 1)%Q)
  else if (101 <=? aqi) && (aqi <=? 150) then
    ("Unhealthy for Sensitive Groups"%string, (1, 0.5, 0, 1)%Q)
  else if (151 <=? aqi) && (aqi <=? 200) then
    ("Unhealthy"%string, (1, 0, 0, 1)%Q)
  else if (201 <=? aqi) && (aqi <=? 300) then
    ("Very Unhealthy"%string, (0.5, 0, 0.5, 1)%Q)
  else
    ("Hazardous"%string, (0.5, 0, 0.1, 1)%Q).

End aqi_calculator.

(** ** src/aqi_calculator.py on binary64 values *)

Module binary64.

(** [x / y] on floats: raises on a divisor that compares equal to zero
    (either zero), and rounds the quotient otherwise. *)
Definition py_div (x y : float) : result float :=
  if PrimFloat.eqb y 0 then Raise ZeroDivisionError else Ok (x / y)%float.

(** The conversion of an [int] operand that meets a [float] one: the
    nearest float, and [OverflowError] beyond the range of the format. *)
Definition float_of_int (n : Z) : result float :=
  match binary_normalize prec emax n 0 false with
  | S754_infinity _ => Raise OverflowError
  | s => Ok (SF2Prim s)
  end.

(** [math.trunc x]: the integer part of a finite float; a NaN raises
    [ValueError] and an infinity [OverflowError]. *)
Definition math_trunc (x : float) : result Z :=
  match Prim2SF x with
  | S754_nan => Raise ValueError
  | S754_infinity _ => Raise OverflowError
  | S754_zero _ => Ok 0
  | S754_finite s m e => Ok (cond_Zopp s (Z.shiftl (Zpos m) e))
  end.

(** The rational that a finite float [(-1)^s * m * 2^e] stands for. *)
Definition exact_value (s : bool) (m : positive) (e : Z) : Q :=
  match e with
  | Zneg p => Qmake (cond_Zopp s (Zpos m)) (Pos.pow 2 p)
  | _ => inject_Z (cond_Zopp s (Z.shiftl (Zpos m) e))
  end.

(** [round x] with one argument: [py_round] of the value of a finite
    float; a NaN raises [ValueError] and an infinity [OverflowError]. *)
Definition round (x : float) : result Z :=
  match Prim2SF x with
  | S754_nan => Raise ValueError
  | S754_infinity _ => Raise OverflowError
  | S754_zero _ => Ok 0
  | S754_finite s m e => Ok (py_round (exact_value s m e))
  end.

(** The guard returns the [int] 0, which every caller uses as a number;
    it is the float zero here. *)
Definition calculate_pm25_concentration
    (mass_initial mass_final flow_rate time_start time_stop : float)
    : result float :=
  if PrimFloat.leb flow_rate 0 || PrimFloat.leb time_stop time_start
  then Ok 0%float
  else
    let mass_diff_mg := (mass_final - mass_initial)%float in
    let volume_l := (flow_rate * (time_stop - time_start))%float in
    volume_m3 <- py_div volume_l 1000 ;;
    concentration_mg_m3 <- py_div mass_diff_mg volume_m3 ;;
    let concentration_ug_m3 := (concentration_mg_m3 * 1000)%float in
    Ok concentration_ug_m3.

Definition get_aqi_breakpoints : list ((float * float) * (Z * Z)) :=
  [ ((0.0,   12.0)%float,  (0,   50));
    ((12.1,  35.4)%float,  (51,  100));
    ((35.5,  55.4)%float,  (101, 150));
    ((55.5,  150.4)%float, (151, 200));
    ((150.5, 250.4)%float, (201, 300));
    ((250.5, 350.4)%float, (301, 400));
    ((350.5, 500.4)%float, (401, 500)) ].

(** The [for] loop of [calculate_aqi].  In
    [(i_high - i_low) / (bp_high - bp_low)] and in [... + i_low] an [int]
    meets a [float] and is converted first. *)
Fixpoint scan_breakpoints (breakpoints : list ((float * float) * (Z * Z)))
    (c : float) : result (option Z) :=
  match breakpoints with
  | [] => Ok None
  | ((bp_low, bp_high), (i_low, i_high)) :: rest =>
      if PrimFloat.leb bp_low c && PrimFloat.leb c bp_high then
        i_width <- float_of_int (i_high - i_low) ;;
        slope <- py_div i_width (bp_high - bp_low)%float ;;
        i_base <- float_of_int i_low ;;
        let aqi := (slope * (c - bp_low) + i_base)%float in
        calculated_aqi <- round aqi ;;
        Ok (Some calculated_aqi)
      else scan_breakpoints rest c
  end.

(** In [math.trunc(pm25_concentration * 10) / 10] the product is a float
    product and the quotient divides two [int]s, which gives the float
    nearest to the exact quotient.  The dividend is the integer part of a
    float, hence a float itself, so that the quotient of the converted
    operands is that same value. *)
Definition calculate_aqi (pm25_concentration : float) : result Z :=
  let breakpoints := get_aqi_breakpoints in
  tenths <- math_trunc (pm25_concentration * 10)%float ;;
  numerator <- float_of_int tenths ;;
  c <- py_div numerator 10 ;;
  found <- scan_breakpoints breakpoints c ;;
  match found with
  | Some calculated_aqi => Ok calculated_aqi
  | None =>
      if PrimFloat.ltb 500.4 c then Ok 500
      else Ok 0
  end.

End binary64.

(** ** src/main.py *)

Module main.

(** [Popup(title=..., content=Label(text=...)).open()]. *)
Inductive popup : Type :=
| Popup (title text : string).

(** The fields of the colour bar widget that [update_aqi] sets; drawing on
    the canvas is left out. *)
Record AQIColorBar : Type := mk_AQIColorBar {
  aqi_value : Z;
  category : string;
  color : aqi_calculator.rgba
}.

(** [AQIColorBar.__init__]. *)
Definition AQIColorBar_init : AQIColorBar :=
  mk_AQIColorBar 0 "Good" (0, 1, 0, 1)%Q.

(** [AQIColorBar.update_aqi]. *)
Definition update_aqi (self : AQIColorBar) (aqi_value : Z) : AQIColorBar :=
  let '(category, color) := aqi_calculator.get_aqi_category aqi_value in
  mk_AQIColorBar aqi_value category color.

(** What the application keeps of a calculation: the colour bar and the
    values stored for the reports ([None] while the attribute is not
    set). *)
Record AQIApp : Type := mk_AQIApp {
  color_bar : AQIColorBar;
  current_pm25 : option float;
  current_aqi : option Z;
  current_category : option string
}.

Section handler.

(** [str(e)], the interpreter's text for an exception. *)
Variable str : exn -> string.

(** The two calls inside the [try]. *)
Definition calculation
    (flow_rate initial_mass final_mass start_time stop_time : float)
    : result (float * Z) :=
  pm25_conc <- binary64.calculate_pm25_concentration
                 initial_mass final_mass flow_rate start_time stop_time ;;
  aqi_value <- binary64.calculate_aqi pm25_conc ;;
  Ok (pm25_conc, aqi_value).

(** [AQIApp.calculate_aqi] from the point where the five fields have been
    read as floats: the validation, the calculation, the stores and the
    two [except] clauses.  The result is the application as the handler
    leaves it and the popups it opened, in order.  The texts of the result
    labels and the save to the database are left out. *)
Definition calculate_aqi (self : AQIApp)
    (flow_rate initial_mass final_mass start_time stop_time : float)
    : AQIApp * list popup :=
  if PrimFloat.leb flow_rate 0 then
    (self, [Popup "Error" "Flow rate must be greater than 0"])
  else if PrimFloat.leb stop_time start_time then
    (self, [Popup "Error" "Stop time must be greater than start time"])
  else
    let popups :=
      if PrimFloat.ltb final_mass initial_mass then
        [Popup "Warning"
           ("Final mass is less than initial mass."
            ++ String (ascii_of_nat 10)
                 "This may indicate an error in measurement.")%string]
      else [] in
    match calculation flow_rate initial_mass final_mass start_time stop_time with
    | Ok (pm25_conc, aqi_value) =>
        let '(category, color) := aqi_calculator.get_aqi_category aqi_value in
        (mk_AQIApp (update_aqi (color_bar self) aqi_value)
           (Some pm25_conc) (Some aqi_value) (Some category), popups)
    | Raise ValueError =>
        (self, popups ++ [Popup "Error" "Please enter valid numbers"])
    | Raise e =>
        (self, popups ++ [Popup "Error" ("An error occurred: " ++ str e)%string])
    end.

End handler.

End main.

(** ** The calendar of Python's [datetime], as far as the generator uses it *)

Module calendar.

(** A [datetime] value: the calendar date and the time within the day (in
    microseconds since midnight).  Python bounds the year by 9999 and
    raises when a sum leaves that range; the bound is not part of this
    model, whose years run on. *)
Record datetime : Type := mk_datetime {
  year : Z;
  month : Z;
  day : Z;
  time_of_day : Z
}.

Definition is_leap (y : Z) : bool :=
  (y mod 4 =? 0) && (negb (y mod 100 =? 0) || (y mod 400 =? 0)).

Definition days_in_month (y m : Z) : Z :=
  if m =? 2 then (if is_leap y then 29 else 28)
  else if (m =? 4) || (m =? 6) || (m =? 9) || (m =? 11) then 30
  else 31.

Definition days_before_year (y : Z) : Z :=
  let p := y - 1 in
  p * 365 + p / 4 - p / 100 + p / 400.

Fixpoint days_before_month_aux (y : Z) (months : nat) : Z :=
  match months with
  | O => 0
  | S k => days_before_month_aux y k + days_in_month y (Z.of_nat (S k))
  end.

Definition days_before_month (y m : Z) : Z :=
  days_before_month_aux y (Z.to_nat (m - 1)).

(** [d.toordinal()]: 1 for 0001-01-01. *)
Definition toordinal (d : datetime) : Z :=
  days_before_year (year d) + days_before_month (year d) (month d) + day d.

(** [d.weekday()]: Monday is 0, Sunday is 6. *)
Definition weekday (d : datetime) : Z :=
  (toordinal d + 6) mod 7.

(** [d.replace(day=v)]. *)
Definition replace_day (d : datetime) (v : Z) : datetime :=
  mk_datetime (year d) (month d) v (time_of_day d).

(** [d + timedelta(days=1)]. *)
Definition add_one_day (d : datetime) : datetime :=
  if day d <? days_in_month (year d) (month d) then
    mk_datetime (year d) (month d) (day d + 1) (time_of_day d)
  else if month d <? 12 then
    mk_datetime (year d) (month d + 1) 1 (time_of_day d)
  else
    mk_datetime (year d + 1) 1 1 (time_of_day d).

(** [a <= b] on [datetime]: lexicographic on the fields. *)
Definition datetime_le (a b : datetime) : bool :=
  if year a <? year b then true
  else if year b <? year a then false
  else if month a <? month b then true
  else if month b <? month a then false
  else if day a <? day b then true
  else if day b <? day a then false
  else time_of_day a <=? time_of_day b.

(** [a.date() == b.date()]. *)
Definition same_date (a b : datetime) : bool :=
  (year a =? year b) && (month a =? month b) && (day a =? day b).

Definition digit (n : Z) : ascii :=
  ascii_of_nat (48 + Z.to_nat (n mod 10)).

(** [d.strftime("%m/%d/%Y")]: month and day on two digits, the year on
    four (its rendering for the years from 1000 on). *)
Definition strftime_mdY (d : datetime) : string :=
  String (digit (month d / 10)) (String (digit (month d))
  (String "/"%char
  (String (digit (day d / 10)) (String (digit (day d))
  (String "/"%char
  (String (digit (year d / 1000)) (String (digit (year d / 100))
  (String (digit (year d / 10)) (String (digit (year d)) EmptyString))))))))).

(** A well-formed value: a day that exists in its month, and a time within
    the day. *)
Definition valid (d : datetime) : Prop :=
  1 <= year d /\ 1 <= month d <= 12 /\
  1 <= day d <= days_in_month (year d) (month d) /\
  0 <= time_of_day d < 86400000000.

End calendar.

(** ** The random source *)

Module random.

(** The state of the generator: the stream of raw draws still to come.
    Every sequence of outcomes of [randint] is produced by some stream. *)
Definition source : Type := nat -> Z.

(** [random.randint(a, b)]: an integer [n] with [a <= n <= b], and the
    generator advanced by one draw. *)
Definition randint (a b : Z) (g : source) : Z * source :=
  (a + (g O) mod (b - a + 1), fun n => g (S n)).

End random.

(** ** src/report_generator.py *)

Module report_generator.

Import calendar.

(** The local variables of [generate_monthly_data] that the loop updates,
    together with the generator. *)
Record loop_state : Type := mk_loop_state {
  dates : list string;
  aqi_values : list Z;
  current_date : datetime;
  previous_aqi : option Z;
  gen : random.source
}.

(** One pass through the body of the [while] loop. *)
Definition loop_body (today : datetime) (current_aqi : option Z)
    (st : loop_state) : loop_state :=
  let dates' := dates st ++ [strftime_mdY (current_date st)] in
  match (if same_date (current_date st) today then current_aqi else None) with
  | Some aqi =>
      mk_loop_state dates' (aqi_values st ++ [aqi])
        (add_one_day (current_date st)) (Some aqi) (gen st)
  | None =>
      let '(base_aqi, g) :=
        match previous_aqi st with
        | None => random.randint 40 120 (gen st)
        | Some prev =>
            let '(variation, g) := random.randint (-20) 20 (gen st) in
            (prev + variation, g)
        end in
      let month := month (current_date st) in
      let '(seasonal_adjustment, g) :=
        if existsb (Z.eqb month) [11; 12; 1; 2] then random.randint 10 25 g
        else if existsb (Z.eqb month) [5; 6; 7; 8] then random.randint (-15) 5 g
        else (0, g) in
      let base_aqi := base_aqi + seasonal_adjustment in
      let weekday := weekday (current_date st) in
      let '(base_aqi, g) :=
        if weekday <? 5 then
          let '(r, g) := random.randint 0 10 g in (base_aqi + r, g)
        else
          let '(r, g) := random.randint 0 8 g in (base_aqi - r, g) in
      let base_aqi := Z.max 15 (Z.min 250 base_aqi) in
      mk_loop_state dates' (aqi_values st ++ [base_aqi])
        (add_one_day (current_date st)) (Some base_aqi) g
  end.

(** [while current_date <= today: ...], bounded by [fuel] passes; [None]
    when the bound is reached before the loop condition fails. *)
Fixpoint while_loop (fuel : nat) (today : datetime) (current_aqi : option Z)
    (st : loop_state) : option loop_state :=
  if datetime_le (current_date st) today then
    match fuel with
    | O => None
    | S fuel' => while_loop fuel' today current_aqi (loop_body today current_aqi st)
    end
  else Some st.

(** [today] stands for the value of [datetime.now()].  The result is the
    returned pair and the generator as the call leaves it. *)
Definition generate_monthly_data (fuel : nat) (today : datetime)
    (current_aqi : option Z) (g : random.source)
    : option ((list string * list Z) * random.source) :=
  let first_day := replace_day today 1 in
  match while_loop fuel today current_aqi
          (mk_loop_state [] [] first_day None g) with
  | Some st => Some ((dates st, aqi_values st), gen st)
  | None => None
  end.

Definition get_aqi_color (aqi_value : Z) : string :=
  if aqi_value <=? 50 then "#006400"
  else if aqi_value <=? 100 then "#228B22"
  else if aqi_value <=? 150 then "#FFFF00"
  else if aqi_value <=? 200 then "#8B4513"
  else if aqi_value <=? 300 then "#FF0000"
  else if aqi_value <=? 400 then "#8B008B"
  else "#800000".

Definition get_aqi_category (aqi_value : Z) : string :=
  if aqi_value <=? 50 then "Good"
  else if aqi_value <=? 100 then "Satisfactory"
  else if aqi_value <=? 150 then "Moderate"
  else if aqi_value <=? 200 then "Unhealthy for Sensitive Groups"
  else if aqi_value <=? 300 then "Unhealthy"
  else if aqi_value <=? 400 then "Very Unhealthy"
  else "Hazardous".

(** What [create_html_report] computes for the chart before it renders
    anything: the monthly series anchored on [aqi_value], the colour of
    each bar and the colour of today's value.  The date caption, the
    JavaScript renderings of the lists, the template file and the
    rendering itself are left out. *)
Record chart_data : Type := mk_chart_data {
  chart_dates : list string;
  historical_aqi : list Z;
  colors : list string;
  current_color : string
}.

Definition create_html_report_data (fuel : nat) (today : datetime)
    (aqi_value : Z) (g : random.source) : option (chart_data * random.source) :=
  match generate_monthly_data fuel today (Some aqi_value) g with
  | Some ((dates, historical_aqi), g') =>
      let colors := map get_aqi_color historical_aqi in
      let current_color := get_aqi_color aqi_value in
      Some (mk_chart_data dates historical_aqi colors current_color, g')
  | None => None
  end.

End report_generator.

(** ** src/report_generator_backup.py *)

Module report_generator_backup.

(** The module defines [get_aqi_category] twice; the second definition
    rebinds the name, so it is the one a call reaches.  (The first is the
    seven-band lookup of [report_generator].) *)
Definition get_aqi_category (aqi_value : Z) : string :=
  if aqi_value <=? 50 then "Good"
  else if aqi_value <=? 100 then "Moderate"
  else if aqi_value <=? 150 then "Unhealthy for Sensitive Groups"
  else if aqi_value <=? 200 then "Unhealthy"
  else if aqi_value <=? 300 then "Very Unhealthy"
  else "Hazardous".

End report_generator_backup.

(** ** Vocabulary of the statements *)

Import aqi_calculator calendar report_generator.

(** The concentration of [k] tenths: what the truncation step of
    [calculate_aqi] hands to the table lookup. *)
Definition tenths (k : Z) : Q := (inject_Z k / 10)%Q.

(** The value an iteration of the lookup loop returns on the row it
    selects. *)
Definition interpolate (bp_low bp_high : Q) (i_low i_high : Z) (c : Q) : Z :=
  py_round (inject_Z (i_high - i_low) / (bp_high - bp_low) * (c - bp_low)
            + inject_Z i_low)%Q.

(** The test of the lookup loop on one row. *)
Definition row_matches (c : Q) (row : (Q * Q) * (Z * Z)) : bool :=
  Qle_bool (fst (fst row)) c && Qle_bool c (snd (fst row)).

(** The first row, in the order the loop visits them, whose closed
    interval holds [c]. *)
Definition first_matching_row (c : Q) : option ((Q * Q) * (Z * Z)) :=
  find (row_matches c) get_aqi_breakpoints.

(** The days of [today]'s month from day [d] on, [count] of them. *)
Fixpoint days_from (today : datetime) (d : Z) (count : nat) : list datetime :=
  match count with
  | O => []
  | S count' => replace_day today d :: days_from today (d + 1) count'
  end.

(** The bounds the generator clamps a synthetic value to. *)
Definition plausible (v : Z) : Prop := 15 <= v <= 250.

(** Every step from an entry of the list to the next lies in [lo, hi]. *)
Fixpoint steps_within (lo hi : Z) (l : list Z) : Prop :=
  match l with
  | a :: (b :: _) as rest => lo <= b - a <= hi /\ steps_within lo hi rest
  | _ => True
  end.

(** What one synthetic day can be, given its predecessor: with none, the
    base in [40, 120] plus the adjustments; with one, a step from it. *)
Definition first_step (prev : option Z) (v : Z) : Prop :=
  match prev with
  | None => 17 <= v <= 155
  | Some p => -43 <= v - p <= 55
  end.

(** A list of synthetic days, each within reach of the one before. *)
Fixpoint walk (prev : option Z) (l : list Z) : Prop :=
  match l with
  | [] => True
  | v :: rest => first_step prev v /\ walk (Some v) rest
  end.

(** The anchor, when there is one, as the tail of the series. *)
Definition anchor_tail (current_aqi : option Z) : list Z :=
  match current_aqi with
  | Some aqi => [aqi]
  | None => []
  end.

(** The number of draws one synthetic day takes in month [m]: the base or
    the variation, the seasonal adjustment where the month has one, and
    the weekly adjustment. *)
Definition draws_per_day (m : Z) : nat :=
  if existsb (Z.eqb m) [11; 12; 1; 2] || existsb (Z.eqb m) [5; 6; 7; 8]
  then 3%nat else 2%nat.

(** A binary64 value that is not below zero: a NaN, a zero of either
    sign, a positive number or the positive infinity. *)
Definition not_negative (x : spec_float) : Prop :=
  match x with
  | S754_nan | S754_zero _ => True
  | S754_infinity s | S754_finite s _ _ => s = false
  end.

(** A positive number or the positive infinity. *)
Definition above_zero (x : spec_float) : Prop :=
  match x with
  | S754_infinity s | S754_finite s _ _ => s = false
  | _ => False
  end.

(** A value of sign [s] that is not a NaN. *)
Definition signed (s : bool) (x : spec_float) : Prop :=
  match x with
  | S754_nan => False
  | S754_zero s' | S754_infinity s' | S754_finite s' _ _ => s' = s
  end.

(** The float nearest to [k / 10]: what a concentration written with one
    decimal denotes. *)
Definition tenth (k : Z) : float :=
  (SF2Prim (binary_normalize prec emax k 0 false) / 10)%float.

(** [k], [k + 1], ..., [k + n - 1]. *)
Fixpoint upto (n : nat) (k : Z) : list Z :=
  match n with
  | O => []
  | S n' => k :: upto n' (k + 1)
  end.

(** The tenths of the scale, 0.0 to 500.4. *)
Definition scale : list Z := upto (Z.to_nat 5005) 0.

(** The category of a concentration of [k] tenths, by the thresholds of the
    breakpoint table. *)
Definition concentration_category (k : Z) : string :=
  if k <? 121 then "Good"
  else if k <? 355 then "Moderate"
  else if k <? 555 then "Unhealthy for Sensitive Groups"
  else if k <? 1505 then "Unhealthy"
  else if k <? 2505 then "Very Unhealthy"
  else "Hazardous".

(** The index of [k] tenths on binary64 values, -1 standing for a raise. *)
Definition index_of_tenths (k : Z) : Z :=
  match binary64.calculate_aqi (tenth k) with
  | Ok i => i
  | Raise _ => -1
  end.

(** What the enumeration of the scale checks at [k] tenths: the call
    returns, the index is in range and not above the next one, it is the
    index of the exact reading unless [k] is 54, and its category is the
    one of the thresholds. *)
Definition scale_check (k : Z) : bool :=
  let i := index_of_tenths k in
  let i' := index_of_tenths (k + 1) in
  (0 <=? i) && (i <=? i') && (i' <=? 500)
  && match aqi_calculator.calculate_aqi (tenths k) with
     | Ok j => (i =? j) || (k =? 54)
     | Raise _ => false
     end
  && String.eqb (fst (aqi_calculator.get_aqi_category i)) (concentration_category k).

(** The warning of the handler on a final mass below the initial one. *)
Definition mass_loss_warning : main.popup :=
  main.Popup "Warning"
    ("Final mass is less than initial mass."
     ++ String (ascii_of_nat 10)
          "This may indicate an error in measurement.")%string.

(** A popup that reports an error. *)
Definition error_popup (p : main.popup) : Prop :=
  match p with main.Popup title _ => title = "Error"%string end.

(** A NaN, or a value of negative sign: what is not above zero and is not
    the positive zero. *)
Definition nan_or_negative (x : spec_float) : Prop :=
  x = S754_nan \/ signed true x.

(** * Properties *)

(** Case analysis on the next test of a conditional in the goal. *)
Ltac case_test :=
  match goal with
  | |- context [if ?b then _ else _] => destruct b eqn:?
  end.


(** ** The numeric primitives *)

Lemma py_div_ok (x y : Q) : ~ (y == 0)%Q -> py_div x y = Ok (x / y)%Q.
Proof.
  intros H. unfold py_div.
  destruct (Qeq_bool y 0) eqn:E; [|reflexivity].
  apply Qeq_bool_iff in E. contradiction.
Qed.









(** ** Concentration calculator *)

(** C3.  With [flow_rate <= 0] or [stop_time <= start_time],
    [calculate_pm25_concentration] returns 0 and raises nothing: the guard
    returns before either division. *)
Theorem degenerate_volume_returns_zero
    (initial_mass final_mass flow_rate start_time stop_time : Q) :
  (flow_rate <= 0)%Q \/ (stop_time <= start_time)%Q ->
  calculate_pm25_concentration initial_mass final_mass flow_rate
      start_time stop_time = Ok 0%Q.
Proof.
  intros H. unfold calculate_pm25_concentration.
  destruct H as [H|H]; apply Qle_bool_iff in H; rewrite H.
  - reflexivity.
  - rewrite orb_true_r. reflexivity.
Qed.

Lemma degenerate_volume_returns_zero_witness :
  calculate_pm25_concentration 100 102.5 0 0 1440 = Ok 0%Q /\
  calculate_pm25_concentration 100 102.5 16.7 60 60 = Ok 0%Q.
Proof.
  split.
  - apply (degenerate_volume_returns_zero 100 102.5 0 0 1440).
    left. discriminate.
  - apply (degenerate_volume_returns_zero 100 102.5 16.7 60 60).
    right. discriminate.
Defined.

(** C8, as stated, fails: a filter that lost one milligram over one litre
    of sampled air satisfies the invariant of the data model and yields a
    concentration of minus one million, on the exact reading and on
    binary64 values alike. *)
Lemma negative_concentration :
  (0 < 1)%Q /\ (0 < 1)%Q /\
  calculate_pm25_concentration 100 99 1 0 1 = Ok (-1000000)%Q /\
  ~ (0 <= -1000000)%Q /\
  PrimFloat.ltb 0 1 = true /\ PrimFloat.ltb 0 1 = true /\
  binary64.calculate_pm25_concentration 100 99 1 0 1
    = Ok (-1000000)%float /\
  PrimFloat.ltb (-1000000) 0 = true.
Proof.
  repeat split; try (vm_compute; reflexivity).
  intros H. apply H. reflexivity.
Qed.

(** ** AQI mapper: the truncated concentration *)

Lemma tenths_ge (a k : Z) : Qle_bool (a # 10) (tenths k) = (a <=? k).
Proof.
  unfold Qle_bool, tenths. cbn.
  destruct (Z.leb_spec (a * 10) (k * 1 * 10)), (Z.leb_spec a k); auto; lia.
Qed.

Lemma tenths_le (a k : Z) : Qle_bool (tenths k) (a # 10) = (k <=? a).
Proof.
  unfold Qle_bool, tenths. cbn.
  destruct (Z.leb_spec (k * 1 * 10) (a * 10)), (Z.leb_spec k a); auto; lia.
Qed.









(** ** AQI mapper: the table lookup *)







(** The loop returns on the first matching row, and the slope division
    raises on no row of the table. *)
Lemma scan_breakpoints_first_matching_row (c : Q) :
  scan_breakpoints get_aqi_breakpoints c =
    match first_matching_row c with
    | Some ((bp_low, bp_high), (i_low, i_high)) =>
        Ok (Some (interpolate bp_low bp_high i_low i_high c))
    | None => Ok None
    end.
Proof.
  unfold first_matching_row, get_aqi_breakpoints, scan_breakpoints, find,
    row_matches.
  cbn [fst snd].
  repeat (case_test; [reflexivity|]).
  reflexivity.
Qed.


(** X5.  The intervals neither overlap nor leave a gap: every number of
    tenths on the scale lies in exactly one row. *)
Lemma breakpoints_partition (k : Z) :
  0 <= k <= 5004 ->
  List.length (filter (row_matches (tenths k)) get_aqi_breakpoints) = 1%nat.
Proof.
  intros H. unfold get_aqi_breakpoints, filter, row_matches. cbn [fst snd].
  rewrite !tenths_ge, !tenths_le.
  assert (C : k <= 120 \/ 121 <= k <= 354 \/ 355 <= k <= 554 \/
              555 <= k <= 1504 \/ 1505 <= k <= 2504 \/
              2505 <= k <= 3504 \/ 3505 <= k) by lia.
  decompose [or] C; clear C;
    repeat match goal with
    | |- context [?a <=? ?b] =>
        first [ rewrite (proj2 (Z.leb_le a b)) by lia
              | rewrite (proj2 (Z.leb_gt a b)) by lia ]
    end; reflexivity.
Qed.



(** ** AQI mapper: the claims *)

(** C4.  At the edges of the first rows of the table:
    [calculate_aqi 12.0 = 50], [calculate_aqi 12.1 = 51],
    [calculate_aqi 35.4 = 100] and [calculate_aqi 35.5 = 101]. *)
Theorem calculate_aqi_boundaries :
  calculate_aqi 12.0 = Ok 50 /\ calculate_aqi 12.1 = Ok 51 /\
  calculate_aqi 35.4 = Ok 100 /\ calculate_aqi 35.5 = Ok 101.
Proof. repeat split; vm_compute; reflexivity. Qed.



(** C5, as stated, fails on the index: at 103.96 the interpolation
    [151 + (103.9 - 55.5) / (150.4 - 55.5) * (200 - 151)] is 175.99...,
    which rounds to 176, and 176 is what [calculate_aqi] returns. *)
Lemma worked_example_index_is_176 :
  calculate_aqi 103.96 = Ok 176 /\
  py_round (151 + (103.9 - 55.5) / (150.4 - 55.5) * (200 - 151))%Q = 176 /\
  calculate_aqi 103.96 <> Ok 175.
Proof.
  split; [vm_compute; reflexivity|].
  split; [vm_compute; reflexivity|].
  vm_compute. discriminate.
Qed.

(** C5, amended.  For the measurement (100, 102.5, 16.7, 0, 1440) the
    concentration is [(2.5 / 24.048) * 1000], which is 103.96 to two
    decimals; [calculate_aqi 103.96] truncates to 103.9, selects the row
    [55.5, 150.4] -> [151, 200] and returns 176, the rounding of the
    interpolation; the same index is returned on the unrounded
    concentration. *)
Theorem worked_example :
  exists r,
    calculate_pm25_concentration 100 102.5 16.7 0 1440 = Ok r /\
    (r == 2.5 / 24.048 * 1000)%Q /\
    (103.955 <= r)%Q /\ (r < 103.965)%Q /\
    (inject_Z (math_trunc (103.96 * 10)%Q) / 10 == 103.9)%Q /\
    first_matching_row 103.9 = Some ((55.5, 150.4)%Q, (151, 200)) /\
    calculate_aqi 103.96 = Ok 176 /\
    py_round (151 + (103.9 - 55.5) / (150.4 - 55.5) * (200 - 151))%Q = 176 /\
    calculate_aqi r = Ok 176.
Proof.
  eexists. split; [vm_compute; reflexivity|].
  repeat split; try (vm_compute; reflexivity).
  vm_compute. discriminate.
Qed.

(** ** Category lookups *)

(** C9.  The two category tables disagree: for some index in [0, 500] the
    label of [aqi_calculator.get_aqi_category] (six bands, Hazardous above
    300) differs from that of [report_generator.get_aqi_category] (seven
    bands, Hazardous above 400). *)
Theorem category_tables_differ :
  exists aqi : Z,
    0 <= aqi <= 500 /\
    fst (aqi_calculator.get_aqi_category aqi)
      <> report_generator.get_aqi_category aqi.
Proof.
  exists 75. split; [lia|]. vm_compute. discriminate.
Qed.

(** Where the two tables agree on [0, 500]: only on the lowest band and
    above 400. *)
Lemma category_tables_agree_iff (aqi : Z) :
  0 <= aqi <= 500 ->
  (fst (aqi_calculator.get_aqi_category aqi)
     = report_generator.get_aqi_category aqi
   <-> aqi <= 50 \/ 400 < aqi).
Proof.
  intros H.
  unfold aqi_calculator.get_aqi_category, report_generator.get_aqi_category.
  repeat match goal with
  | |- context [?a <=? ?b] => destruct (Z.leb_spec a b)
  end; cbn [andb fst]; try lia;
  (split; [intros E; try discriminate E; lia | intros; try reflexivity; lia]).
Qed.

(** C10.  For every index outside [0, 300], every negative index among
    them, [aqi_calculator.get_aqi_category] returns the catch-all
    ("Hazardous", maroon). *)
Theorem out_of_band_is_hazardous (aqi : Z) :
  aqi < 0 \/ 300 < aqi ->
  aqi_calculator.get_aqi_category aqi
    = ("Hazardous"%string, (0.5, 0, 0.1, 1)%Q).
Proof.
  intros H. unfold aqi_calculator.get_aqi_category.
  repeat match goal with
  | |- context [?a <=? ?b] => destruct (Z.leb_spec a b)
  end; cbn [andb]; try reflexivity; lia.
Qed.

Lemma out_of_band_is_hazardous_witness :
  aqi_calculator.get_aqi_category (-1)
    = ("Hazardous"%string, (0.5, 0, 0.1, 1)%Q) /\
  aqi_calculator.get_aqi_category 301
    = ("Hazardous"%string, (0.5, 0, 0.1, 1)%Q).
Proof.
  split.
  - apply (out_of_band_is_hazardous (-1)). left. reflexivity.
  - apply (out_of_band_is_hazardous 301). right. reflexivity.
Defined.

(** ** Synthetic series generator *)

Lemma days_from_length (today : datetime) (count : nat) (d : Z) :
  List.length (days_from today d count) = count.
Proof.
  revert d. induction count as [|count IH]; intros d; cbn; [reflexivity|].
  rewrite IH. reflexivity.
Qed.

Lemma days_from_nth (today : datetime) (count : nat) (d : Z) (i : nat) :
  (i < count)%nat ->
  nth_error (days_from today d count) i = Some (replace_day today (d + Z.of_nat i)).
Proof.
  revert d i. induction count as [|count IH]; intros d i Hi; [lia|].
  destruct i as [|i]; cbn [days_from nth_error].
  - rewrite Z.add_0_r. reflexivity.
  - rewrite IH by lia. f_equal. f_equal. lia.
Qed.

Lemma datetime_le_refl (d : datetime) : datetime_le d d = true.
Proof.
  unfold datetime_le. rewrite !Z.ltb_irrefl. apply Z.leb_refl.
Qed.

Lemma datetime_le_add_one_day (d : datetime) :
  datetime_le (add_one_day d) d = false.
Proof.
  unfold add_one_day.
  destruct (Z.ltb_spec (day d) (days_in_month (year d) (month d)));
    [|destruct (Z.ltb_spec (month d) 12)];
    unfold datetime_le; cbn [year month day time_of_day];
    repeat match goal with
    | |- context [?a <? ?b] => destruct (Z.ltb_spec a b); try lia; try reflexivity
    end.
Qed.

Lemma datetime_le_earlier_day (today : datetime) (d : Z) :
  d < day today -> datetime_le (replace_day today d) today = true.
Proof.
  intros H. unfold datetime_le, replace_day. cbn [year month day time_of_day].
  rewrite !Z.ltb_irrefl. apply Z.ltb_lt in H. rewrite H. reflexivity.
Qed.

Lemma same_date_earlier_day (today : datetime) (d : Z) :
  d < day today -> same_date (replace_day today d) today = false.
Proof.
  intros H. unfold same_date, replace_day. cbn [year month day].
  apply andb_false_iff. right. apply Z.eqb_neq. lia.
Qed.

Lemma same_date_refl (d : datetime) : same_date d d = true.
Proof. unfold same_date. rewrite !Z.eqb_refl. reflexivity. Qed.

Lemma replace_day_same (d : datetime) : replace_day d (day d) = d.
Proof. destruct d. reflexivity. Qed.

Lemma add_one_day_within_month (today : datetime) (d : Z) :
  valid today -> d < day today ->
  add_one_day (replace_day today d) = replace_day today (d + 1).
Proof.
  intros (_ & _ & Hd & _) H. unfold add_one_day, replace_day.
  cbn [year month day time_of_day].
  destruct (Z.ltb_spec d (days_in_month (year today) (month today))); [reflexivity|lia].
Qed.

Lemma randint_range (a b : Z) (g : random.source) :
  a <= b -> a <= fst (random.randint a b g) <= b.
Proof.
  intros H. unfold random.randint. cbn [fst].
  pose proof (Z.mod_pos_bound (g O) (b - a + 1) ltac:(lia)). lia.
Qed.

(** A pass that does not take the anchor appends the date and a clamped
    synthetic value, and hands that value on as the predecessor. *)
Lemma loop_body_synthetic (today : datetime) (current_aqi : option Z)
    (st : loop_state) :
  (if same_date (current_date st) today then current_aqi else None) = None ->
  exists v g',
    loop_body today current_aqi st =
      mk_loop_state (dates st ++ [strftime_mdY (current_date st)])
                    (aqi_values st ++ [v])
                    (add_one_day (current_date st)) (Some v) g' /\
    plausible v.
Proof.
  intros H. unfold loop_body. rewrite H.
  unfold random.randint, plausible.
  destruct (previous_aqi st);
    destruct (existsb _ [11; 12; 1; 2]);
    try destruct (existsb _ [5; 6; 7; 8]);
    destruct (weekday (current_date st) <? 5);
    eexists; eexists; (split; [reflexivity | lia]).
Qed.

(** The pass for today's date with an anchor appends the anchor itself and
    draws nothing. *)
Lemma loop_body_anchor (today : datetime) (aqi : Z) (st : loop_state) :
  same_date (current_date st) today = true ->
  loop_body today (Some aqi) st =
    mk_loop_state (dates st ++ [strftime_mdY (current_date st)])
                  (aqi_values st ++ [aqi])
                  (add_one_day (current_date st)) (Some aqi) (gen st).
Proof. intros H. unfold loop_body. rewrite H. reflexivity. Qed.

Lemma while_loop_from (today : datetime) (aqi : Z) :
  valid today ->
  forall (m fuel : nat) (d : Z) (st : loop_state),
    current_date st = replace_day today d ->
    d + Z.of_nat m = day today ->
    (m < fuel)%nat ->
    exists earlier st',
      while_loop fuel today (Some aqi) st = Some st' /\
      dates st' = dates st ++ map strftime_mdY (days_from today d (S m)) /\
      aqi_values st' = aqi_values st ++ earlier ++ [aqi] /\
      List.length earlier = m /\ Forall plausible earlier.
Proof.
  intros V. induction m as [|m IH]; intros fuel d st Hc Hd Hf;
    (destruct fuel as [|fuel]; [lia|]); cbn [while_loop].
  - assert (d = day today) as -> by lia.
    rewrite replace_day_same in Hc.
    rewrite Hc, datetime_le_refl.
    rewrite loop_body_anchor by (rewrite Hc; apply same_date_refl).
    exists [], (mk_loop_state (dates st ++ [strftime_mdY (current_date st)])
                  (aqi_values st ++ [aqi])
                  (add_one_day (current_date st)) (Some aqi) (gen st)).
    split.
    + destruct fuel; cbn [while_loop current_date];
        rewrite Hc, datetime_le_add_one_day; reflexivity.
    + cbn. rewrite Hc, replace_day_same. repeat split. constructor.
  - assert (Hlt : d < day today) by lia.
    rewrite Hc, datetime_le_earlier_day by assumption.
    destruct (loop_body_synthetic today (Some aqi) st) as (v & g' & E & Pv).
    { rewrite Hc, same_date_earlier_day by assumption. reflexivity. }
    rewrite E.
    match goal with |- context [while_loop fuel today _ ?s] => set (st1 := s) end.
    destruct (IH fuel (d + 1) st1) as (earlier & st' & W & D & A & L & F).
    { unfold st1. cbn [current_date]. rewrite Hc.
      apply add_one_day_within_month; assumption. }
    { lia. }
    { lia. }
    exists (v :: earlier), st'. split; [exact W|].
    unfold st1 in D, A. cbn [dates aqi_values] in D, A.
    rewrite D, A, Hc, <- !app_assoc. cbn [days_from map app List.length].
    repeat split; try reflexivity.
    + rewrite L. reflexivity.
    + constructor; assumption.
Qed.

(** C7.  For every outcome of the random source, [generate_monthly_data]
    with anchor [todayIndex], today being day [n] of its month, produces
    exactly [n] entries, dated in order from the 1st of the month through
    today; the last index is [todayIndex] exactly and every earlier one
    lies in [15, 250].  The loop ends within [n] passes. *)
Theorem generate_monthly_data_anchored
    (fuel : nat) (today : datetime) (todayIndex : Z) (g : random.source) :
  valid today ->
  (Z.to_nat (day today) < fuel)%nat ->
  exists earlier g',
    generate_monthly_data fuel today (Some todayIndex) g
      = Some ((map strftime_mdY (days_from today 1 (Z.to_nat (day today))),
               earlier ++ [todayIndex]), g') /\
    List.length (map strftime_mdY (days_from today 1 (Z.to_nat (day today))))
      = Z.to_nat (day today) /\
    List.length (earlier ++ [todayIndex]) = Z.to_nat (day today) /\
    (forall i, (i < Z.to_nat (day today))%nat ->
       nth_error (days_from today 1 (Z.to_nat (day today))) i
         = Some (replace_day today (1 + Z.of_nat i))) /\
    Forall plausible earlier.
Proof.
  intros V Hf.
  pose proof V as (_ & _ & [Hd _] & _).
  set (n := Z.to_nat (day today)) in *.
  assert (Hn : n = S (Nat.pred n)) by lia.
  destruct (while_loop_from today todayIndex V (Nat.pred n) fuel 1
              (mk_loop_state [] [] (replace_day today 1) None g))
    as (earlier & st' & W & D & A & L & F);
    [reflexivity | lia | lia |].
  cbn [dates aqi_values app] in D, A. rewrite <- Hn in D.
  exists earlier, (gen st'). unfold generate_monthly_data.
  rewrite W, D, A. split; [reflexivity|].
  split; [rewrite length_map; apply days_from_length|].
  split; [rewrite length_app, L; cbn; lia|].
  split; [intros i Hi; apply days_from_nth, Hi | exact F].
Qed.

Lemma generate_monthly_data_anchored_witness :
  exists earlier g',
    generate_monthly_data 32 (mk_datetime 2026 11 5 0) (Some 80)
        (fun i => Z.of_nat i * 37 + 11)
      = Some ((map strftime_mdY (days_from (mk_datetime 2026 11 5 0) 1 5),
               earlier ++ [80]), g') /\
    List.length (map strftime_mdY (days_from (mk_datetime 2026 11 5 0) 1 5))
      = 5%nat /\
    List.length (earlier ++ [80]) = 5%nat /\
    (forall i, (i < 5)%nat ->
       nth_error (days_from (mk_datetime 2026 11 5 0) 1 5) i
         = Some (replace_day (mk_datetime 2026 11 5 0) (1 + Z.of_nat i))) /\
    Forall plausible earlier.
Proof.
  apply (generate_monthly_data_anchored 32 (mk_datetime 2026 11 5 0) 80
           (fun i => Z.of_nat i * 37 + 11)).
  - unfold valid; cbn; lia.
  - cbn; lia.
Defined.

(** ** The calculator on binary64 values *)

(** *** Signs through the rounded operations *)

Lemma binary_round_aux_sign (s : bool) (m e : Z) (l : location) :
  match binary_round_aux prec emax s m e l with
  | S754_nan => True
  | S754_zero s' | S754_infinity s' | S754_finite s' _ _ => s' = s
  end.
Proof.
  unfold binary_round_aux.
  destruct (shr_fexp prec emax m e l) as [mrs' e'].
  destruct (shr_fexp prec emax _ e' loc_Exact) as [mrs'' e''].
  destruct (shr_m mrs''); [reflexivity | | exact I].
  destruct (e'' <=? emax - prec); reflexivity.
Qed.

Lemma binary_round_aux_not_negative (m e : Z) (l : location) :
  not_negative (binary_round_aux prec emax false m e l).
Proof.
  pose proof (binary_round_aux_sign false m e l) as H.
  destruct (binary_round_aux prec emax false m e l); cbn; auto.
Qed.

Lemma binary_round_not_negative (m : positive) (e : Z) :
  not_negative (binary_round prec emax false m e).
Proof.
  unfold binary_round. destruct (shl_align _ _ _) as [mz ez].
  apply binary_round_aux_not_negative.
Qed.

Lemma SFmul_not_negative (x y : spec_float) :
  above_zero x -> not_negative y -> not_negative (SF64mul x y).
Proof.
  destruct x as [sx|sx| |sx mx ex], y as [sy|sy| |sy my ey]; cbn;
    intros Hx Hy; subst; try exact I; try reflexivity; try contradiction.
  apply binary_round_aux_not_negative.
Qed.

Lemma SFmul_not_negative_l (x y : spec_float) :
  not_negative x -> above_zero y -> not_negative (SF64mul x y).
Proof.
  destruct x as [sx|sx| |sx mx ex], y as [sy|sy| |sy my ey]; cbn;
    intros Hx Hy; subst; try exact I; try reflexivity; try contradiction.
  apply binary_round_aux_not_negative.
Qed.

Lemma SFdiv_not_negative (x y : spec_float) :
  not_negative x -> not_negative y -> SFeqb y (S754_zero false) = false ->
  not_negative (SF64div x y).
Proof.
  destruct x as [sx|sx| |sx mx ex], y as [sy|sy| |sy my ey];
    unfold SF64div, SFdiv; cbn [not_negative];
    intros Hx Hy Hz; subst; try exact I; try reflexivity;
    try discriminate Hz.
  destruct (SFdiv_core_binary prec emax (Z.pos mx) ex (Z.pos my) ey)
    as [[mz ez] lz].
  apply binary_round_aux_not_negative.
Qed.

(** Subtraction of the smaller from the larger. *)

Lemma digits2_pos_bounds (m : positive) :
  2 ^ (Zpos (digits2_pos m) - 1) <= Zpos m < 2 ^ Zpos (digits2_pos m).
Proof.
  induction m as [p IH|p IH|]; cbn [digits2_pos].
  - rewrite Pos2Z.inj_succ.
    replace (Z.succ (Zpos (digits2_pos p)) - 1) with (Z.succ (Zpos (digits2_pos p) - 1)) by lia.
    rewrite !Z.pow_succ_r by lia. lia.
  - rewrite Pos2Z.inj_succ.
    replace (Z.succ (Zpos (digits2_pos p)) - 1) with (Z.succ (Zpos (digits2_pos p) - 1)) by lia.
    rewrite !Z.pow_succ_r by lia. lia.
  - cbn. lia.
Qed.

Lemma iter_xO_value (d m : positive) :
  Zpos (Pos.iter xO m d) = Zpos m * 2 ^ Zpos d.
Proof.
  induction d as [|d IH] using Pos.peano_ind.
  - cbn. lia.
  - rewrite Pos.iter_succ, Pos2Z.inj_succ, Z.pow_succ_r by lia.
    change (Zpos (Pos.iter xO m d)~0) with (2 * Zpos (Pos.iter xO m d)).
    rewrite IH. lia.
Qed.

Lemma shl_align_value (mx : positive) (ex ez : Z) :
  ez <= ex -> Zpos (fst (shl_align mx ex ez)) = Zpos mx * 2 ^ (ex - ez).
Proof.
  intros H. unfold shl_align.
  destruct (ez - ex) as [|d|d] eqn:E; try lia; cbn [fst].
  - replace (ex - ez) with 0 by lia. lia.
  - replace (ex - ez) with (Zpos d) by lia. apply iter_xO_value.
Qed.

(** What validity says of a finite binary64 value. *)
Lemma valid_binary_finite (s : bool) (m : positive) (e : Z) :
  valid_binary (S754_finite s m e) = true ->
  Zpos (digits2_pos m) <= 53 /\ -1074 <= e /\
  (-1074 < e -> Zpos (digits2_pos m) = 53).
Proof.
  cbn [SpecFloat.valid_binary]. unfold bounded, canonical_mantissa, fexp, emin.
  change prec with 53. change emax with 1024.
  intros H. apply andb_prop in H. destruct H as [H _].
  apply Z.eqb_eq in H. lia.
Qed.

(** Of two valid finite values the one with the larger exponent has the
    larger magnitude. *)
Lemma larger_exponent_larger_magnitude
    (s1 s2 : bool) (m1 m2 : positive) (e1 e2 : Z) :
  valid_binary (S754_finite s1 m1 e1) = true ->
  valid_binary (S754_finite s2 m2 e2) = true ->
  e1 < e2 ->
  Zpos m1 < Zpos m2 * 2 ^ (e2 - e1).
Proof.
  intros V1 V2 H.
  apply valid_binary_finite in V1, V2.
  destruct V1 as (D1 & L1 & _). destruct V2 as (_ & _ & N2).
  specialize (N2 ltac:(lia)).
  pose proof (digits2_pos_bounds m1) as B1.
  pose proof (digits2_pos_bounds m2) as B2.
  rewrite N2 in B2.
  assert (P1 : 2 ^ Zpos (digits2_pos m1) <= 2 ^ 53)
    by (apply Z.pow_le_mono_r; lia).
  assert (P2 : 2 ^ 1 <= 2 ^ (e2 - e1)) by (apply Z.pow_le_mono_r; lia).
  change (2 ^ 1) with 2 in P2.
  change (2 ^ (53 - 1)) with 4503599627370496 in B2.
  change (2 ^ 53) with 9007199254740992 in *.
  nia.
Qed.

Lemma binary_normalize_not_negative (z e : Z) :
  0 <= z -> not_negative (binary_normalize prec emax z e false).
Proof.
  intros H. destruct z as [|p|p]; cbn [binary_normalize]; [exact I | | lia].
  apply binary_round_not_negative.
Qed.

Lemma SFsub_not_negative (x y : spec_float) :
  valid_binary x = true -> valid_binary y = true ->
  SFleb y x = true -> not_negative (SF64sub x y).
Proof.
  intros Vx Vy.
  destruct x as [sx|sx| |sx mx ex], y as [sy|sy| |sy my ey];
    unfold SFleb, SF64sub; cbn [SFcompare SFsub not_negative];
    try (destruct sx); try (destruct sy);
    intros H; try discriminate H; try exact I; try reflexivity.
  all: apply binary_normalize_not_negative; cbn [cond_Zopp].
  all: rewrite !shl_align_value by lia.
  - (* both negative: |y| >= |x| *)
    destruct (Z.compare_spec ey ex) as [E|E|E]; try discriminate H.
    + subst. rewrite Z.min_id, Z.sub_diag, !Z.mul_1_r.
      rewrite Pos.compare_cont_spec in H. cbn [Pos.switch_Eq] in H.
      destruct (Pos.compare_spec my mx); cbn in H; try discriminate H; lia.
    + rewrite Z.min_l by lia. rewrite Z.sub_diag, Z.mul_1_r.
      pose proof (larger_exponent_larger_magnitude _ _ _ _ _ _ Vx Vy E). lia.
  - (* x positive, y negative *)
    assert (0 < 2 ^ (ex - Z.min ex ey)) by (apply Z.pow_pos_nonneg; lia).
    assert (0 < 2 ^ (ey - Z.min ex ey)) by (apply Z.pow_pos_nonneg; lia).
    nia.
  - (* both positive: x >= y *)
    destruct (Z.compare_spec ey ex) as [E|E|E]; try discriminate H.
    + subst. rewrite Z.min_id, Z.sub_diag, !Z.mul_1_r.
      rewrite Pos.compare_cont_spec in H. cbn [Pos.switch_Eq] in H.
      destruct (Pos.compare_spec my mx); cbn in H; try discriminate H; lia.
    + rewrite Z.min_r by lia. rewrite Z.sub_diag, Z.mul_1_r.
      pose proof (larger_exponent_larger_magnitude _ _ _ _ _ _ Vy Vx E). lia.
Qed.

(** From the primitive comparisons to the signs. *)

Lemma Prim2SF_zero : Prim2SF 0 = S754_zero false.
Proof. reflexivity. Qed.

Lemma Prim2SF_thousand : above_zero (Prim2SF 1000).
Proof. vm_compute. reflexivity. Qed.

Lemma ltb_zero_above_zero (x : float) :
  PrimFloat.ltb 0 x = true -> above_zero (Prim2SF x).
Proof.
  rewrite ltb_spec, Prim2SF_zero. unfold SFltb.
  destruct (Prim2SF x) as [s|[|]| |[|] m e]; cbn; intros H;
    try discriminate H; reflexivity.
Qed.

Lemma ltb_zero_not_leb (x : float) :
  PrimFloat.ltb 0 x = true -> PrimFloat.leb x 0 = false.
Proof.
  rewrite ltb_spec, leb_spec, Prim2SF_zero. unfold SFltb, SFleb.
  destruct (Prim2SF x) as [s|[|]| |[|] m e]; cbn; intros H;
    try discriminate H; reflexivity.
Qed.

Lemma SFcompare_swap (x y : spec_float) :
  SFcompare y x = option_map CompOpp (SFcompare x y).
Proof.
  destruct x as [sx|sx| |sx mx ex], y as [sy|sy| |sy my ey]; cbn;
    try destruct sx; try destruct sy; try reflexivity;
    rewrite (Z.compare_antisym ex ey);
    destruct (ex ?= ey); cbn; try reflexivity;
    rewrite !Pos.compare_cont_spec; cbn [Pos.switch_Eq];
    rewrite (Pos.compare_antisym mx my); destruct (mx ?= my)%positive;
    reflexivity.
Qed.

Lemma ltb_not_leb (x y : float) :
  PrimFloat.ltb x y = true ->
  PrimFloat.leb y x = false /\ SFleb (Prim2SF x) (Prim2SF y) = true.
Proof.
  rewrite ltb_spec, leb_spec. unfold SFltb, SFleb.
  rewrite (SFcompare_swap (Prim2SF x) (Prim2SF y)).
  destruct (SFcompare (Prim2SF x) (Prim2SF y)) as [[| |]|]; cbn;
    intros H; try discriminate H. split; reflexivity.
Qed.

Lemma not_negative_not_ltb_zero (x : float) :
  not_negative (Prim2SF x) -> PrimFloat.ltb x 0 = false.
Proof.
  rewrite ltb_spec, Prim2SF_zero. unfold SFltb.
  destruct (Prim2SF x) as [s|s| |s m e]; cbn; intros H; subst; reflexivity.
Qed.

Lemma above_zero_not_negative (x : spec_float) :
  above_zero x -> not_negative x.
Proof. destruct x; cbn; auto. Qed.

(** *** The concentration *)

(** C2 fails on the code.  With [flow_rate = 1e-200] and
    [stop_time = 1e-200] after [start_time = 0] both tests of the guard
    are passed, the volume [flow_rate * (stop_time - start_time)]
    underflows to zero, and [mass_diff_mg / volume_m3] raises
    [ZeroDivisionError]: the call returns nothing. *)
Theorem concentration_underflow :
  PrimFloat.ltb 0 1e-200 = true /\ PrimFloat.ltb 0 1e-200 = true /\
  (1e-200 * (1e-200 - 0))%float = 0%float /\
  binary64.calculate_pm25_concentration 0 1 1e-200 0 1e-200
    = Raise ZeroDivisionError.
Proof. repeat split; vm_compute; reflexivity. Qed.

(** C8, amended.  With [flow_rate > 0], [stop_time > start_time] and
    [final_mass >= initial_mass], a concentration that
    [calculate_pm25_concentration] returns is never negative; the only
    other outcome is the [ZeroDivisionError] of a volume that underflows
    to zero. *)
Theorem concentration_never_negative
    (initial_mass final_mass flow_rate start_time stop_time : float) :
  PrimFloat.ltb 0 flow_rate = true ->
  PrimFloat.ltb start_time stop_time = true ->
  PrimFloat.leb initial_mass final_mass = true ->
  match binary64.calculate_pm25_concentration initial_mass final_mass
          flow_rate start_time stop_time with
  | Ok r => PrimFloat.ltb r 0 = false
  | Raise e => e = ZeroDivisionError
  end.
Proof.
  intros Hf Ht Hm. unfold binary64.calculate_pm25_concentration.
  rewrite (ltb_zero_not_leb _ Hf).
  destruct (ltb_not_leb _ _ Ht) as [-> Lt]. cbn [orb].
  assert (T : not_negative (Prim2SF (stop_time - start_time))).
  { rewrite sub_spec. apply SFsub_not_negative;
      [apply Prim2SF_valid | apply Prim2SF_valid | exact Lt]. }
  assert (D : not_negative (Prim2SF (final_mass - initial_mass))).
  { rewrite sub_spec. apply SFsub_not_negative;
      [apply Prim2SF_valid | apply Prim2SF_valid |].
    rewrite <- leb_spec. exact Hm. }
  assert (L : not_negative (Prim2SF (flow_rate * (stop_time - start_time)))).
  { rewrite mul_spec. apply SFmul_not_negative;
      [apply ltb_zero_above_zero, Hf | exact T]. }
  unfold binary64.py_div.
  destruct (PrimFloat.eqb 1000 0) eqn:E1; [discriminate E1|]. cbn [bind].
  set (volume_m3 := (flow_rate * (stop_time - start_time) / 1000)%float).
  assert (V : not_negative (Prim2SF volume_m3)).
  { unfold volume_m3. rewrite div_spec. apply SFdiv_not_negative;
      [exact L | apply above_zero_not_negative, Prim2SF_thousand
      | reflexivity]. }
  destruct (PrimFloat.eqb volume_m3 0) eqn:E2; cbn [bind]; [reflexivity|].
  apply not_negative_not_ltb_zero.
  rewrite mul_spec. apply SFmul_not_negative_l; [|apply Prim2SF_thousand].
  rewrite div_spec. apply SFdiv_not_negative; [exact D | exact V |].
  rewrite eqb_spec, Prim2SF_zero in E2. exact E2.
Qed.

Lemma concentration_never_negative_witness :
  match binary64.calculate_pm25_concentration 100 102.5 16.7 0 1440 with
  | Ok r => PrimFloat.ltb r 0 = false
  | Raise e => e = ZeroDivisionError
  end.
Proof.
  apply (concentration_never_negative 100 102.5 16.7 0 1440); reflexivity.
Defined.

(** Not negative is all that can be said: when the mass difference and the
    volume both overflow, their quotient is a NaN. *)
Lemma concentration_not_a_number :
  binary64.calculate_pm25_concentration (-1e308) 1e308 1e308 0 1e308
    = Ok nan.
Proof. vm_compute. reflexivity. Qed.

(** *** The index *)

(** C1 fails on the code.  The concentration 1e308 is above 500.4, but
    [pm25_concentration * 10] overflows to infinity and [math.trunc]
    raises [OverflowError] before the test [c > 500.4] is reached; the
    same happens below zero at -1e308.  One order of magnitude lower the
    product is finite and the clamp returns 500.  The value 1e308 is the
    concentration of the measurement (0, 1e305, 1, 0, 1000). *)
Theorem calculate_aqi_overflow :
  PrimFloat.is_finite 1e308 = true /\
  PrimFloat.ltb 500.4 1e308 = true /\
  binary64.calculate_aqi 1e308 = Raise OverflowError /\
  PrimFloat.ltb (-1e308) 0 = true /\
  binary64.calculate_aqi (-1e308) = Raise OverflowError /\
  binary64.calculate_aqi 1e307 = Ok 500 /\
  binary64.calculate_pm25_concentration 0 1e305 1 0 1000 = Ok 1e308%float.
Proof. repeat split; vm_compute; reflexivity. Qed.

(** *** The inputs of the specification *)

(** On the inputs that the specification names, binary64 values give what
    the exact reading gives: the guard, the four boundaries of the first
    rows, the two ends of every row and the worked example. *)
Lemma binary64_guard
    (initial_mass final_mass flow_rate start_time stop_time : float) :
  PrimFloat.leb flow_rate 0 = true \/
  PrimFloat.leb stop_time start_time = true ->
  binary64.calculate_pm25_concentration initial_mass final_mass flow_rate
      start_time stop_time = Ok 0%float.
Proof.
  intros H. unfold binary64.calculate_pm25_concentration.
  destruct H as [H|H]; rewrite H.
  - reflexivity.
  - rewrite orb_true_r. reflexivity.
Qed.

Lemma binary64_boundaries :
  binary64.calculate_aqi 12.0 = Ok 50 /\
  binary64.calculate_aqi 12.1 = Ok 51 /\
  binary64.calculate_aqi 35.4 = Ok 100 /\
  binary64.calculate_aqi 35.5 = Ok 101.
Proof. repeat split; vm_compute; reflexivity. Qed.

Lemma binary64_row_ends :
  Forall (fun row : (float * float) * (Z * Z) =>
            binary64.calculate_aqi (fst (fst row)) = Ok (fst (snd row)) /\
            binary64.calculate_aqi (snd (fst row)) = Ok (snd (snd row)))
         binary64.get_aqi_breakpoints.
Proof. repeat constructor; vm_compute; reflexivity. Qed.

Lemma binary64_measurement_example :
  exists r,
    binary64.calculate_pm25_concentration 100 102.5 16.7 0 1440 = Ok r /\
    PrimFloat.ltb 103.955 r = true /\ PrimFloat.ltb r 103.965 = true /\
    binary64.calculate_aqi r = Ok 176 /\
    binary64.calculate_aqi 103.96 = Ok 176.
Proof. eexists. repeat split; vm_compute; reflexivity. Qed.

(** * Further properties of the code *)

(** ** AQI mapper: the index as a function of the concentration *)

(** Settles each integer comparison of the goal that the hypotheses
    decide. *)
Ltac decide_tests :=
  repeat match goal with
  | |- context [?a <=? ?b] =>
      first [ rewrite (proj2 (Z.leb_le a b)) by lia
            | rewrite (proj2 (Z.leb_gt a b)) by lia ]
  | |- context [?a <? ?b] =>
      first [ rewrite (proj2 (Z.ltb_lt a b)) by lia
            | rewrite (proj2 (Z.ltb_ge a b)) by lia ]
  end.

(** X4.  At the two ends of every row of the table the index is the end of
    the row's index interval, exactly. *)
Theorem calculate_aqi_row_ends :
  Forall (fun row : (Q * Q) * (Z * Z) =>
            calculate_aqi (fst (fst row)) = Ok (fst (snd row)) /\
            calculate_aqi (snd (fst row)) = Ok (snd (snd row)))
         get_aqi_breakpoints.
Proof. repeat constructor; vm_compute; reflexivity. Qed.

Lemma breakpoints_partition_witness :
  List.length (filter (row_matches (tenths 121)) get_aqi_breakpoints) = 1%nat.
Proof. apply (breakpoints_partition 121). lia. Defined.

(** ** Concentration calculator on binary64 values: the outcomes *)

Lemma calculate_pm25_concentration_past_guard
    (initial_mass final_mass flow_rate start_time stop_time : float) :
  PrimFloat.ltb 0 flow_rate = true ->
  PrimFloat.ltb start_time stop_time = true ->
  binary64.calculate_pm25_concentration initial_mass final_mass flow_rate
      start_time stop_time =
    let volume_m3 := (flow_rate * (stop_time - start_time) / 1000)%float in
    if PrimFloat.eqb volume_m3 0 then Raise ZeroDivisionError
    else Ok ((final_mass - initial_mass) / volume_m3 * 1000)%float.
Proof.
  intros Hf Ht. unfold binary64.calculate_pm25_concentration.
  rewrite (ltb_zero_not_leb _ Hf).
  destruct (ltb_not_leb _ _ Ht) as [-> _]. cbn [orb].
  unfold binary64.py_div. change (PrimFloat.eqb 1000 0) with false.
  cbn [bind].
  destruct (PrimFloat.eqb (flow_rate * (stop_time - start_time) / 1000) 0);
    reflexivity.
Qed.



(** The subtraction of the masses is rounded as well, so that a tare
    common to both masses shows in the result. *)
Lemma concentration_depends_on_tare :
  binary64.calculate_pm25_concentration 0 0.121 1 0 10
    <> binary64.calculate_pm25_concentration 100 100.121 1 0 10.
Proof. vm_compute. discriminate. Qed.

(** ** AQI mapper on binary64 values: concentrations below zero *)

(** The rounding of a non-negative mantissa never yields a NaN, and keeps
    the sign it is given. *)
Lemma shr_1_nonneg (mrs : shr_record) :
  0 <= shr_m mrs -> 0 <= shr_m (shr_1 mrs).
Proof.
  destruct mrs as [m r s]. cbn [shr_m]. intros H.
  destruct m as [|[p|p|]|p]; cbn; lia.
Qed.

Lemma iter_pos_invariant {A : Type} (P : A -> Prop) (f : A -> A) :
  (forall x, P x -> P (f x)) ->
  forall (p : positive) (x : A), P x -> P (iter_pos f p x).
Proof.
  intros Hf. induction p as [p IH|p IH|]; intros x Hx; cbn [iter_pos]; auto.
Qed.

Lemma shr_fexp_nonneg (m e : Z) (l : location) :
  0 <= m -> 0 <= shr_m (fst (shr_fexp prec emax m e l)).
Proof.
  intros H. unfold shr_fexp, shr.
  assert (I : 0 <= shr_m (shr_record_of_loc m l))
    by (destruct l as [|[| |]]; exact H).
  destruct (fexp prec emax (Zdigits2 m + e) - e) as [|p|p]; cbn [fst];
    try exact I.
  apply (iter_pos_invariant (fun mrs => 0 <= shr_m mrs)); [|exact I].
  apply shr_1_nonneg.
Qed.

Lemma round_nearest_even_nonneg (m : Z) (l : location) :
  0 <= m -> 0 <= round_nearest_even m l.
Proof.
  intros H. destruct l as [|[| |]]; cbn [round_nearest_even]; try lia.
  destruct (Z.even m); lia.
Qed.

Lemma binary_round_aux_signed (s : bool) (m e : Z) (l : location) :
  0 <= m -> signed s (binary_round_aux prec emax s m e l).
Proof.
  intros H. unfold binary_round_aux.
  pose proof (shr_fexp_nonneg m e l H) as H1.
  destruct (shr_fexp prec emax m e l) as [mrs' e']. cbn [fst] in H1.
  pose proof (shr_fexp_nonneg _ e' loc_Exact
                (round_nearest_even_nonneg _ (loc_of_shr_record mrs') H1)) as H2.
  destruct (shr_fexp prec emax _ e' loc_Exact) as [mrs'' e'']. cbn [fst] in H2.
  destruct (shr_m mrs'') as [|p|p]; [reflexivity | | lia].
  destruct (e'' <=? emax - prec); reflexivity.
Qed.

Lemma binary_round_signed (s : bool) (m : positive) (e : Z) :
  signed s (binary_round prec emax s m e).
Proof.
  unfold binary_round. destruct (shl_align _ _ _) as [mz ez].
  apply binary_round_aux_signed. lia.
Qed.

Lemma binary_normalize_signed (z e : Z) :
  0 <= z -> signed false (binary_normalize prec emax z e false).
Proof.
  intros H. destruct z as [|p|p]; cbn [binary_normalize]; [reflexivity | | lia].
  apply binary_round_signed.
Qed.

Lemma SFldexp_signed (s : bool) (x : spec_float) (e : Z) :
  signed s x -> signed s (SFldexp prec emax x e).
Proof.
  destruct x as [s'|s'| |s' m ex]; cbn; intros H; try exact H.
  subst. apply binary_round_signed.
Qed.

Lemma SFopp_signed (s : bool) (x : spec_float) :
  signed s x -> signed (negb s) (SFopp x).
Proof. destruct x; cbn; intros H; subst; auto. Qed.

(** The float that [SF2Prim] makes of a finite negative value is negative
    or a zero. *)
Lemma SF2Prim_finite_signed (s : bool) (m : positive) (e : Z) :
  signed s (Prim2SF (SF2Prim (S754_finite s m e))).
Proof.
  cbn [SF2Prim].
  assert (P : signed false
                (Prim2SF (Z.ldexp (of_uint63 (Uint63Axioms.of_Z (Zpos m))) e))).
  { rewrite Z_ldexp_spec. apply SFldexp_signed.
    rewrite of_uint63_spec. apply binary_normalize_signed.
    apply Uint63.to_Z_bounded. }
  destruct s; [|exact P].
  rewrite opp_spec. apply (SFopp_signed false). exact P.
Qed.

Lemma SFdiv_core_binary_nonneg (mx my : positive) (ex ey : Z) :
  0 <= fst (fst (SFdiv_core_binary prec emax (Zpos mx) ex (Zpos my) ey)).
Proof.
  unfold SFdiv_core_binary.
  set (s := ex - ey - _).
  set (m' := match s with Z0 => Zpos mx | Zpos _ => Z.shiftl (Zpos mx) s | Zneg _ => 0 end).
  assert (M : 0 <= m').
  { unfold m'. destruct s; try lia. apply Z.shiftl_nonneg. lia. }
  pose proof (Z_div_mod m' (Zpos my) ltac:(lia)) as D.
  destruct (Z.div_eucl m' (Zpos my)) as [q r]. cbn [fst].
  destruct D as [E R]. nia.
Qed.

Lemma SFdiv_signed (x : spec_float) (my : positive) (ey : Z) :
  signed true x ->
  signed true (SF64div x (S754_finite false my ey)).
Proof.
  destruct x as [s|s| |s mx ex]; unfold SF64div, SFdiv; cbn [signed];
    intros H; subst; try contradiction; try reflexivity.
  pose proof (SFdiv_core_binary_nonneg mx my ex ey) as Q.
  destruct (SFdiv_core_binary prec emax (Zpos mx) ex (Zpos my) ey)
    as [[mz ez] lz]. cbn [fst] in Q.
  apply binary_round_aux_signed. exact Q.
Qed.

Lemma SFmul_signed (x : spec_float) (my : positive) (ey : Z) :
  signed true x ->
  signed true (SF64mul x (S754_finite false my ey)).
Proof.
  destruct x as [s|s| |s mx ex]; unfold SF64mul, SFmul; cbn [signed];
    intros H; subst; try contradiction; try reflexivity.
  apply binary_round_aux_signed. lia.
Qed.

Lemma Prim2SF_ten : Prim2SF 10 = S754_finite false 5629499534213120 (-49).
Proof. reflexivity. Qed.


(** A truncated concentration below zero, or a negative zero, passes the
    table and both tests that follow it. *)
Lemma scan_below_zero (c : float) :
  signed true (Prim2SF c) ->
  (found <- binary64.scan_breakpoints binary64.get_aqi_breakpoints c ;;
   match found with
   | Some calculated_aqi => Ok calculated_aqi
   | None => if PrimFloat.ltb 500.4 c then Ok 500 else Ok 0
   end) = Ok 0.
Proof.
  intros H. destruct (Prim2SF c) as [s|s| |s m e] eqn:E; cbn [signed] in H;
    subst; try contradiction.
  - rewrite <- (SF2Prim_Prim2SF c), E. vm_compute. reflexivity.
  - unfold binary64.get_aqi_breakpoints. cbn [binary64.scan_breakpoints].
    rewrite !leb_spec, ltb_spec, E. vm_compute. reflexivity.
  - unfold binary64.get_aqi_breakpoints. cbn [binary64.scan_breakpoints].
    rewrite !leb_spec, ltb_spec, E. vm_compute. reflexivity.
Qed.

Lemma quotient_below_zero (numerator : float) :
  signed true (Prim2SF numerator) ->
  (c <- binary64.py_div numerator 10 ;;
   found <- binary64.scan_breakpoints binary64.get_aqi_breakpoints c ;;
   match found with
   | Some calculated_aqi => Ok calculated_aqi
   | None => if PrimFloat.ltb 500.4 c then Ok 500 else Ok 0
   end) = Ok 0.
Proof.
  intros H. unfold binary64.py_div.
  change (PrimFloat.eqb 10 0) with false. cbn [bind].
  apply scan_below_zero. rewrite div_spec, Prim2SF_ten.
  apply SFdiv_signed, H.
Qed.

(** A concentration of negative sign, the negative zero included, has the
    index 0 unless its product with 10 overflows. *)
Lemma calculate_aqi_signed (c : float) :
  signed true (Prim2SF c) ->
  binary64.calculate_aqi c = Ok 0 \/
  binary64.calculate_aqi c = Raise OverflowError.
Proof.
  intros H.
  assert (P : signed true (Prim2SF (c * 10))).
  { rewrite mul_spec, Prim2SF_ten. apply SFmul_signed, H. }
  unfold binary64.calculate_aqi, binary64.math_trunc.
  destruct (Prim2SF (c * 10)) as [s|s| |s m e]; cbn [signed] in P; subst;
    try contradiction.
  - left. vm_compute. reflexivity.
  - right. reflexivity.
  - cbn [bind cond_Zopp].
    pose proof (proj2 (Z.shiftl_nonneg (Zpos m) e) ltac:(lia)) as N.
    destruct (Z.shiftl (Zpos m) e) as [|p|p]; [left; vm_compute; reflexivity | | lia].
    cbn [Z.opp]. unfold binary64.float_of_int. cbn [binary_normalize].
    pose proof (binary_round_signed true p 0) as R.
    destruct (binary_round prec emax true p 0) as [s|s| |s m' e'] eqn:E;
      cbn [signed] in R; subst; try contradiction.
    + left. cbn [bind]. apply quotient_below_zero. vm_compute. reflexivity.
    + right. reflexivity.
    + left. cbn [bind]. apply quotient_below_zero.
      apply SF2Prim_finite_signed.
Qed.

(** A NaN is refused by [math.trunc]. *)
Lemma calculate_aqi_nan (c : float) :
  Prim2SF c = S754_nan -> binary64.calculate_aqi c = Raise ValueError.
Proof.
  intros H. unfold binary64.calculate_aqi, binary64.math_trunc.
  rewrite mul_spec, H. reflexivity.
Qed.



(** ** AQI mapper on binary64 values: the tenths of the scale *)

Lemma In_upto (n : nat) (k x : Z) :
  k <= x < k + Z.of_nat n -> In x (upto n k).
Proof.
  revert k. induction n as [|n IH]; intros k H; [lia|].
  cbn [upto]. destruct (Z.eq_dec k x) as [E|E]; [left; exact E|].
  right. apply IH. lia.
Qed.

Lemma scale_checked : forallb scale_check scale = true.
Proof. vm_compute. reflexivity. Qed.

Lemma scale_check_at (k : Z) : 0 <= k <= 5004 -> scale_check k = true.
Proof.
  intros H. pose proof scale_checked as A. rewrite forallb_forall in A.
  apply A, In_upto. rewrite Z2Nat.id; lia.
Qed.

Lemma index_of_tenths_returned (k : Z) :
  0 <= index_of_tenths k -> binary64.calculate_aqi (tenth k) = Ok (index_of_tenths k).
Proof.
  unfold index_of_tenths.
  destruct (binary64.calculate_aqi (tenth k)); [reflexivity | lia].
Qed.

Lemma index_of_tenths_step (k : Z) :
  0 <= k <= 5004 ->
  0 <= index_of_tenths k <= index_of_tenths (k + 1) /\
  index_of_tenths (k + 1) <= 500.
Proof.
  intros H. pose proof (scale_check_at k H) as C. unfold scale_check in C.
  repeat (apply andb_prop in C; destruct C as [C ?]).
  apply Z.leb_le in C. lia.
Qed.

Lemma index_of_tenths_chain (n : nat) (k : Z) :
  0 <= k -> k + Z.of_nat n <= 5005 ->
  index_of_tenths k <= index_of_tenths (k + Z.of_nat n).
Proof.
  intros L. induction n as [|n IH]; intros U.
  - rewrite Z.add_0_r. lia.
  - rewrite Nat2Z.inj_succ in *.
    replace (k + Z.succ (Z.of_nat n)) with (k + Z.of_nat n + 1) by lia.
    pose proof (index_of_tenths_step (k + Z.of_nat n) ltac:(lia)). lia.
Qed.

Lemma index_of_tenths_range (k : Z) :
  0 <= k <= 5005 -> 0 <= index_of_tenths k <= 500.
Proof.
  intros H. destruct (Z.eq_dec k 5005) as [->|N].
  - pose proof (index_of_tenths_step 5004 ltac:(lia)) as S.
    change (5004 + 1) with 5005 in S. lia.
  - pose proof (index_of_tenths_step k ltac:(lia)). lia.
Qed.

(** X2.  On concentrations written with one decimal, from 0.0 up to
    500.5, [calculate_aqi] returns, its index lies in [0, 500] and it
    is monotone. *)
Theorem calculate_aqi_monotone_on_tenths (k1 k2 : Z) :
  0 <= k1 -> k1 <= k2 -> k2 <= 5005 ->
  exists i1 i2,
    binary64.calculate_aqi (tenth k1) = Ok i1 /\
    binary64.calculate_aqi (tenth k2) = Ok i2 /\
    0 <= i1 /\ i1 <= i2 /\ i2 <= 500.
Proof.
  intros L M U.
  pose proof (index_of_tenths_range k1 ltac:(lia)) as R1.
  pose proof (index_of_tenths_range k2 ltac:(lia)) as R2.
  exists (index_of_tenths k1), (index_of_tenths k2).
  split; [apply index_of_tenths_returned; lia|].
  split; [apply index_of_tenths_returned; lia|].
  split; [lia|]. split; [|lia].
  pose proof (index_of_tenths_chain (Z.to_nat (k2 - k1)) k1 L) as C.
  rewrite Z2Nat.id in C by lia.
  replace (k1 + (k2 - k1)) with k2 in C by lia. apply C. lia.
Qed.

Lemma calculate_aqi_monotone_on_tenths_witness :
  exists i1 i2,
    binary64.calculate_aqi (tenth 120) = Ok i1 /\
    binary64.calculate_aqi (tenth 121) = Ok i2 /\
    0 <= i1 /\ i1 <= i2 /\ i2 <= 500.
Proof. apply (calculate_aqi_monotone_on_tenths 120 121); lia. Defined.

(** X1.  On the concentrations of the scale written with one decimal, the
    category shown for the index of [calculate_aqi] is decided by the
    thresholds of the table on the concentration itself: Good below 12.1,
    Moderate below 35.5, Unhealthy for Sensitive Groups below 55.5,
    Unhealthy below 150.5, Very Unhealthy below 250.5, Hazardous from
    there on. *)
Theorem category_of_tenths (k : Z) :
  0 <= k <= 5004 ->
  exists i,
    binary64.calculate_aqi (tenth k) = Ok i /\
    fst (aqi_calculator.get_aqi_category i) = concentration_category k.
Proof.
  intros H. pose proof (scale_check_at k H) as C. unfold scale_check in C.
  apply andb_prop in C. destruct C as [_ C]. apply String.eqb_eq in C.
  exists (index_of_tenths k). split; [|exact C].
  apply index_of_tenths_returned.
  pose proof (index_of_tenths_range k ltac:(lia)). lia.
Qed.

Lemma category_of_tenths_witness :
  exists i,
    binary64.calculate_aqi (tenth 1039) = Ok i /\
    fst (aqi_calculator.get_aqi_category i) = concentration_category 1039.
Proof. apply (category_of_tenths 1039). lia. Defined.

(** X15.  On the concentrations of the scale written with one decimal the
    two readings of [calculate_aqi] return the same index, except at 5.4. *)
Theorem readings_agree_on_tenths (k : Z) :
  0 <= k <= 5004 -> k <> 54 ->
  binary64.calculate_aqi (tenth k) = aqi_calculator.calculate_aqi (tenths k).
Proof.
  intros H N. pose proof (scale_check_at k H) as C. unfold scale_check in C.
  apply andb_prop in C. destruct C as [C _].
  apply andb_prop in C. destruct C as [_ C].
  rewrite index_of_tenths_returned
    by (pose proof (index_of_tenths_range k ltac:(lia)); lia).
  destruct (aqi_calculator.calculate_aqi (tenths k)) as [j|]; [|discriminate C].
  apply orb_prop in C. destruct C as [C|C]; apply Z.eqb_eq in C.
  - rewrite C. reflexivity.
  - contradiction.
Qed.

Lemma readings_agree_on_tenths_witness :
  binary64.calculate_aqi (tenth 1039) = aqi_calculator.calculate_aqi (tenths 1039).
Proof. apply (readings_agree_on_tenths 1039); lia. Defined.

(** At 5.4 the interpolation is 22.5: its binary64 value lies just above
    and rounds to 23, the exact one is a tie and rounds to the even 22. *)
Lemma readings_differ_at_5_4 :
  binary64.calculate_aqi 5.4 = Ok 23 /\ aqi_calculator.calculate_aqi 5.4 = Ok 22.
Proof. split; vm_compute; reflexivity. Qed.

(** X3.  [calculate_aqi] truncates to one decimal and does not round to
    it: 12.09 maps like 12.0 and not like 12.1.  What is truncated is the
    rounded product [c * 10]: the float just below 0.9 has the product 9
    and maps like 0.9, not like 0.8. *)
Theorem calculate_aqi_truncates :
  binary64.calculate_aqi 12.09 = Ok 50 /\
  binary64.calculate_aqi 12.0 = Ok 50 /\
  binary64.calculate_aqi 12.1 = Ok 51 /\
  PrimFloat.ltb 0.89999999999999991 0.9 = true /\
  (0.89999999999999991 * 10)%float = 9%float /\
  binary64.calculate_aqi 0.89999999999999991 = Ok 4 /\
  binary64.calculate_aqi 0.9 = Ok 4 /\
  binary64.calculate_aqi 0.8 = Ok 3.
Proof. repeat split; vm_compute; reflexivity. Qed.

(** ** Synthetic series generator: the shape of the walk *)

(** Names each remainder of the goal and records its range. *)
Ltac bound_remainders :=
  repeat match goal with
  | |- context [?a mod ?b] =>
      let r := fresh "r" in
      pose proof (Z.mod_pos_bound a b ltac:(lia));
      set (r := a mod b) in *
  end.

(** A synthetic pass in full: the value is clamped, it is within reach of
    its predecessor, and the generator has moved on by the draws of the
    day. *)
Lemma loop_body_synthetic_step (today : datetime) (current_aqi : option Z)
    (st : loop_state) :
  (if same_date (current_date st) today then current_aqi else None) = None ->
  (forall p, previous_aqi st = Some p -> plausible p) ->
  exists v g',
    loop_body today current_aqi st =
      mk_loop_state (dates st ++ [strftime_mdY (current_date st)])
                    (aqi_values st ++ [v])
                    (add_one_day (current_date st)) (Some v) g' /\
    plausible v /\ first_step (previous_aqi st) v /\
    (forall i, g' i
       = gen st (draws_per_day (month (current_date st)) + i)%nat).
Proof.
  intros H P. unfold loop_body. rewrite H.
  unfold random.randint, plausible, first_step, draws_per_day.
  destruct (previous_aqi st) as [p|];
    [specialize (P p eq_refl); unfold plausible in P|];
    destruct (existsb _ [11; 12; 1; 2]);
    try destruct (existsb _ [5; 6; 7; 8]);
    destruct (weekday (current_date st) <? 5);
    eexists; eexists; (split; [reflexivity|]); cbn [orb];
    (split; [lia|]); (split; [|intros i; reflexivity]);
    bound_remainders; lia.
Qed.

(** The loop from day [d] on, with or without an anchor: the synthetic
    days form a walk from the predecessor the loop starts with, and each
    takes the draws of the month. *)
Lemma while_loop_walk (today : datetime) (current_aqi : option Z) :
  valid today ->
  forall (m fuel : nat) (d : Z) (st : loop_state),
    current_date st = replace_day today d ->
    d + Z.of_nat m = day today ->
    (m < fuel)%nat ->
    (forall p, previous_aqi st = Some p -> plausible p) ->
    exists synth st',
      while_loop fuel today current_aqi st = Some st' /\
      dates st' = dates st ++ map strftime_mdY (days_from today d (S m)) /\
      aqi_values st' = aqi_values st ++ synth ++ anchor_tail current_aqi /\
      List.length (synth ++ anchor_tail current_aqi) = S m /\
      Forall plausible synth /\
      walk (previous_aqi st) synth /\
      (forall i, gen st' i
         = gen st (draws_per_day (month today) * List.length synth + i)%nat).
Proof.
  intros V. induction m as [|m IH]; intros fuel d st Hc Hd Hf Hp;
    (destruct fuel as [|fuel]; [lia|]); cbn [while_loop].
  - assert (d = day today) as -> by lia.
    rewrite replace_day_same in Hc.
    rewrite Hc, datetime_le_refl.
    destruct current_aqi as [aqi|].
    + rewrite loop_body_anchor by (rewrite Hc; apply same_date_refl).
      exists [], (mk_loop_state (dates st ++ [strftime_mdY (current_date st)])
                    (aqi_values st ++ [aqi])
                    (add_one_day (current_date st)) (Some aqi) (gen st)).
      split.
      { destruct fuel; cbn [while_loop current_date];
          rewrite Hc, datetime_le_add_one_day; reflexivity. }
      cbn. rewrite Hc, replace_day_same, Nat.mul_0_r.
      repeat split. constructor.
    + destruct (loop_body_synthetic_step today None st) as (v & g' & E & Pv & S1 & G).
      { destruct (same_date (current_date st) today); reflexivity. }
      { assumption. }
      rewrite E. eexists [v], _. split.
      { destruct fuel; cbn [while_loop current_date];
          rewrite Hc, datetime_le_add_one_day; reflexivity. }
      cbn. rewrite ?Hc, replace_day_same.
      repeat split; try assumption.
      * constructor; [assumption | constructor].
      * intros i. rewrite G, Hc, Nat.mul_1_r. reflexivity.
  - assert (Hlt : d < day today) by lia.
    rewrite Hc, datetime_le_earlier_day by assumption.
    destruct (loop_body_synthetic_step today current_aqi st)
      as (v & g' & E & Pv & S1 & G).
    { rewrite Hc, same_date_earlier_day by assumption. reflexivity. }
    { assumption. }
    rewrite E.
    match goal with |- context [while_loop fuel today _ ?s] => set (st1 := s) end.
    destruct (IH fuel (d + 1) st1) as (synth & st' & W & D & A & L & F & K & N).
    { unfold st1. cbn [current_date]. rewrite Hc.
      apply add_one_day_within_month; assumption. }
    { lia. }
    { lia. }
    { unfold st1. cbn [previous_aqi]. intros p [= <-]. assumption. }
    exists (v :: synth), st'. split; [exact W|].
    unfold st1 in D, A, K, N. cbn [dates aqi_values previous_aqi gen] in D, A, K, N.
    rewrite D, A, Hc, <- !app_assoc.
    split; [reflexivity|]. split; [reflexivity|].
    split; [cbn [app List.length]; rewrite L; reflexivity|].
    split; [constructor; assumption|].
    split; [split; assumption|].
    intros i. rewrite N, G, Hc. cbn [month replace_day List.length].
    f_equal. lia.
Qed.

Lemma walk_steps_within (l : list Z) (prev : option Z) :
  walk prev l -> steps_within (-43) 55 l.
Proof.
  revert prev. induction l as [|v [|w rest] IH]; intros prev W;
    cbn [steps_within]; try exact I.
  destruct W as [_ W]. split; [exact (proj1 W)|].
  apply (IH (Some v)). exact W.
Qed.

(** The call as a whole, with or without an anchor. *)
Lemma generate_monthly_data_shape
    (fuel : nat) (today : datetime) (current_aqi : option Z)
    (g : random.source) :
  valid today ->
  (Z.to_nat (day today) < fuel)%nat ->
  exists synth g',
    generate_monthly_data fuel today current_aqi g
      = Some ((map strftime_mdY (days_from today 1 (Z.to_nat (day today))),
               synth ++ anchor_tail current_aqi), g') /\
    List.length (synth ++ anchor_tail current_aqi) = Z.to_nat (day today) /\
    Forall plausible synth /\
    walk None synth /\
    (forall i, g' i
       = g (draws_per_day (month today) * List.length synth + i)%nat).
Proof.
  intros V Hf.
  pose proof V as (_ & _ & [Hd _] & _).
  set (n := Z.to_nat (day today)) in *.
  assert (Hn : n = S (Nat.pred n)) by lia.
  destruct (while_loop_walk today current_aqi V (Nat.pred n) fuel 1
              (mk_loop_state [] [] (replace_day today 1) None g))
    as (synth & st' & W & D & A & L & F & K & N);
    [reflexivity | lia | lia | discriminate |].
  cbn [dates aqi_values previous_aqi gen app] in D, A, K, N.
  rewrite <- Hn in D, L.
  exists synth, (gen st'). unfold generate_monthly_data.
  rewrite W, D, A. repeat split; assumption.
Qed.

(** X7.  Called without an anchor, the generator still returns one entry
    per day of the month so far, and every entry, today's among them, is
    a synthetic value in [15, 250]. *)
Theorem generate_monthly_data_unanchored
    (fuel : nat) (today : datetime) (g : random.source) :
  valid today ->
  (Z.to_nat (day today) < fuel)%nat ->
  exists values g',
    generate_monthly_data fuel today None g
      = Some ((map strftime_mdY (days_from today 1 (Z.to_nat (day today))),
               values), g') /\
    List.length values = Z.to_nat (day today) /\
    Forall plausible values.
Proof.
  intros V Hf.
  destruct (generate_monthly_data_shape fuel today None g V Hf)
    as (synth & g' & E & L & F & _ & _).
  cbn [anchor_tail] in E, L. rewrite app_nil_r in E, L.
  exists synth, g'. repeat split; assumption.
Qed.

Lemma generate_monthly_data_unanchored_witness :
  exists values g',
    generate_monthly_data 32 (mk_datetime 2026 7 4 0) None
        (fun i => Z.of_nat i * 37 + 11)
      = Some ((map strftime_mdY (days_from (mk_datetime 2026 7 4 0) 1 4),
               values), g') /\
    List.length values = 4%nat /\
    Forall plausible values.
Proof.
  apply (generate_monthly_data_unanchored 32 (mk_datetime 2026 7 4 0)
           (fun i => Z.of_nat i * 37 + 11)).
  - unfold valid; cbn; lia.
  - cbn; lia.
Defined.

(** X8.  The synthetic days form a correlated walk: the first starts in
    [17, 155], and from one synthetic day to the next the value falls by
    at most 43 and rises by at most 55. *)
Theorem synthetic_days_walk
    (fuel : nat) (today : datetime) (current_aqi : option Z)
    (g : random.source) :
  valid today ->
  (Z.to_nat (day today) < fuel)%nat ->
  exists dates synth g',
    generate_monthly_data fuel today current_aqi g
      = Some ((dates, synth ++ anchor_tail current_aqi), g') /\
    (forall v, hd_error synth = Some v -> 17 <= v <= 155) /\
    steps_within (-43) 55 synth.
Proof.
  intros V Hf.
  destruct (generate_monthly_data_shape fuel today current_aqi g V Hf)
    as (synth & g' & E & _ & _ & W & _).
  eexists; exists synth, g'. split; [exact E|]. split.
  - intros v Hv. destruct synth as [|v' rest]; [discriminate|].
    injection Hv as ->. exact (proj1 W).
  - exact (walk_steps_within _ _ W).
Qed.

Lemma synthetic_days_walk_witness :
  exists dates synth g',
    generate_monthly_data 32 (mk_datetime 2026 11 5 0) (Some 80)
        (fun i => Z.of_nat i * 37 + 11)
      = Some ((dates, synth ++ anchor_tail (Some 80)), g') /\
    (forall v, hd_error synth = Some v -> 17 <= v <= 155) /\
    steps_within (-43) 55 synth.
Proof.
  apply (synthetic_days_walk 32 (mk_datetime 2026 11 5 0) (Some 80)
           (fun i => Z.of_nat i * 37 + 11)).
  - unfold valid; cbn; lia.
  - cbn; lia.
Defined.

(** X9.  The call takes from the random source exactly the draws of its
    synthetic days, two or three a day by the month; the anchored day
    takes none. *)
Theorem generate_monthly_data_draws
    (fuel : nat) (today : datetime) (current_aqi : option Z)
    (g : random.source) :
  valid today ->
  (Z.to_nat (day today) < fuel)%nat ->
  exists dates synth g',
    generate_monthly_data fuel today current_aqi g
      = Some ((dates, synth ++ anchor_tail current_aqi), g') /\
    List.length (synth ++ anchor_tail current_aqi) = Z.to_nat (day today) /\
    (forall i, g' i
       = g (draws_per_day (month today) * List.length synth + i)%nat).
Proof.
  intros V Hf.
  destruct (generate_monthly_data_shape fuel today current_aqi g V Hf)
    as (synth & g' & E & L & _ & _ & N).
  eexists; exists synth, g'. split; [exact E|]. split; assumption.
Qed.

Lemma generate_monthly_data_draws_witness :
  exists dates synth g',
    generate_monthly_data 32 (mk_datetime 2026 11 5 0) (Some 80)
        (fun i => Z.of_nat i * 37 + 11)
      = Some ((dates, synth ++ anchor_tail (Some 80)), g') /\
    List.length (synth ++ anchor_tail (Some 80)) = 5%nat /\
    (forall i, g' i
       = (fun i => Z.of_nat i * 37 + 11)
           (draws_per_day 11 * List.length synth + i)%nat).
Proof.
  apply (generate_monthly_data_draws 32 (mk_datetime 2026 11 5 0) (Some 80)
           (fun i => Z.of_nat i * 37 + 11)).
  - unfold valid; cbn; lia.
  - cbn; lia.
Defined.

(** ** Report: colours and categories *)

(** The two lookups of [report_generator] cut the scale at the same
    places. *)
Lemma report_bands (v : Z) :
  (v <= 50 /\ get_aqi_color v = "#006400"%string
     /\ report_generator.get_aqi_category v = "Good"%string) \/
  (50 < v <= 100 /\ get_aqi_color v = "#228B22"%string
     /\ report_generator.get_aqi_category v = "Satisfactory"%string) \/
  (100 < v <= 150 /\ get_aqi_color v = "#FFFF00"%string
     /\ report_generator.get_aqi_category v = "Moderate"%string) \/
  (150 < v <= 200 /\ get_aqi_color v = "#8B4513"%string
     /\ report_generator.get_aqi_category v
          = "Unhealthy for Sensitive Groups"%string) \/
  (200 < v <= 300 /\ get_aqi_color v = "#FF0000"%string
     /\ report_generator.get_aqi_category v = "Unhealthy"%string) \/
  (300 < v <= 400 /\ get_aqi_color v = "#8B008B"%string
     /\ report_generator.get_aqi_category v = "Very Unhealthy"%string) \/
  (400 < v /\ get_aqi_color v = "#800000"%string
     /\ report_generator.get_aqi_category v = "Hazardous"%string).
Proof.
  unfold get_aqi_color, report_generator.get_aqi_category.
  assert (R : v <= 50 \/ 50 < v <= 100 \/ 100 < v <= 150 \/ 150 < v <= 200 \/
              200 < v <= 300 \/ 300 < v <= 400 \/ 400 < v) by lia.
  decompose [or] R; clear R; decide_tests;
    [ left | do 1 right; left | do 2 right; left | do 3 right; left
    | do 4 right; left | do 5 right; left | do 6 right ];
    repeat split; lia.
Qed.

(** X11.  In the report module the bar colour and the category label change
    together: two indices get one colour exactly when they get one
    label. *)
Theorem report_color_iff_category (a b : Z) :
  get_aqi_color a = get_aqi_color b
  <-> report_generator.get_aqi_category a = report_generator.get_aqi_category b.
Proof.
  pose proof (report_bands a) as Ra. pose proof (report_bands b) as Rb.
  decompose [or and] Ra; clear Ra; decompose [or and] Rb; clear Rb;
    repeat match goal with H : _ = _ |- _ => rewrite H; clear H end;
    split; intros E; solve [reflexivity | discriminate E].
Qed.

(** X12.  The category lookup that [report_generator_backup] ends up with
    agrees with the application's on every index from 0 on, and on no
    negative one. *)
Theorem backup_category_agrees_iff (aqi : Z) :
  report_generator_backup.get_aqi_category aqi
    = fst (aqi_calculator.get_aqi_category aqi)
  <-> 0 <= aqi.
Proof.
  unfold report_generator_backup.get_aqi_category,
    aqi_calculator.get_aqi_category.
  assert (R : aqi < 0 \/ 0 <= aqi <= 50 \/ 50 < aqi <= 100 \/
              100 < aqi <= 150 \/ 150 < aqi <= 200 \/ 200 < aqi <= 300 \/
              300 < aqi) by lia.
  decompose [or] R; clear R; decide_tests; cbn [andb fst];
    (split; [intros E; solve [lia | discriminate E] | intros; solve [reflexivity | lia]]).
Qed.

(** A clamped value is never coloured purple or maroon. *)
Lemma get_aqi_color_plausible (v : Z) :
  plausible v ->
  get_aqi_color v <> "#8B008B"%string /\ get_aqi_color v <> "#800000"%string.
Proof.
  unfold plausible. intros P.
  pose proof (report_bands v) as R.
  decompose [or and] R; clear R; try lia;
    repeat match goal with H : get_aqi_color _ = _ |- _ => rewrite H end;
    split; discriminate.
Qed.

(** X10.  The chart of a report has as many bars, colours and dates as the
    month has days so far; the last colour is the colour of today's
    index, and no earlier bar is purple or maroon. *)
Theorem chart_colors
    (fuel : nat) (today : datetime) (aqi_value : Z) (g : random.source) :
  valid today ->
  (Z.to_nat (day today) < fuel)%nat ->
  exists data g' earlier,
    create_html_report_data fuel today aqi_value g = Some (data, g') /\
    List.length (chart_dates data) = Z.to_nat (day today) /\
    List.length (historical_aqi data) = Z.to_nat (day today) /\
    List.length (colors data) = Z.to_nat (day today) /\
    colors data = earlier ++ [current_color data] /\
    Forall (fun c => c <> "#8B008B"%string /\ c <> "#800000"%string) earlier.
Proof.
  intros V Hf.
  destruct (generate_monthly_data_shape fuel today (Some aqi_value) g V Hf)
    as (synth & g' & E & L & F & _ & _).
  unfold create_html_report_data. rewrite E. cbn [anchor_tail] in *.
  eexists; exists g', (map get_aqi_color synth).
  split; [reflexivity|]. cbn [chart_dates historical_aqi colors current_color].
  split; [rewrite length_map; apply days_from_length|].
  split; [exact L|].
  split; [rewrite length_map; exact L|].
  split; [rewrite map_app; reflexivity|].
  apply Forall_map. eapply Forall_impl; [|exact F].
  intros v. apply get_aqi_color_plausible.
Qed.

Lemma chart_colors_witness :
  exists data g' earlier,
    create_html_report_data 32 (mk_datetime 2026 11 5 0) 80
        (fun i => Z.of_nat i * 37 + 11) = Some (data, g') /\
    List.length (chart_dates data) = 5%nat /\
    List.length (historical_aqi data) = 5%nat /\
    List.length (colors data) = 5%nat /\
    colors data = earlier ++ [current_color data] /\
    Forall (fun c => c <> "#8B008B"%string /\ c <> "#800000"%string) earlier.
Proof.
  apply (chart_colors 32 (mk_datetime 2026 11 5 0) 80
           (fun i => Z.of_nat i * 37 + 11)).
  - unfold valid; cbn; lia.
  - cbn; lia.
Defined.

(** ** Application: the calculation handler *)

(** The difference of a smaller and a larger value is negative. *)
Lemma SFsub_signed (x y : spec_float) :
  valid_binary x = true -> valid_binary y = true ->
  SFltb x y = true -> signed true (SF64sub x y).
Proof.
  intros Vx Vy.
  destruct x as [sx|sx| |sx mx ex], y as [sy|sy| |sy my ey];
    unfold SFltb, SF64sub; cbn [SFcompare SFsub signed];
    try (destruct sx); try (destruct sy);
    intros H; try discriminate H; try reflexivity.
  all: cbn [cond_Zopp]; rewrite !shl_align_value by lia.
  all: match goal with
       | |- signed true (binary_normalize _ _ ?z _ _) =>
           assert (N : z < 0); [|destruct z as [|p|p]; try lia;
                                  apply binary_round_signed]
       end.
  - (* both negative: |x| > |y| *)
    destruct (Z.compare_spec ex ey) as [E|E|E]; try discriminate H.
    + subst. rewrite Z.min_id, Z.sub_diag, !Z.mul_1_r.
      rewrite Pos.compare_cont_spec in H. cbn [Pos.switch_Eq] in H.
      destruct (Pos.compare_spec mx my); cbn in H; try discriminate H; lia.
    + rewrite Z.min_r by lia. rewrite Z.sub_diag, Z.mul_1_r.
      pose proof (larger_exponent_larger_magnitude _ _ _ _ _ _ Vy Vx E). lia.
  - (* x negative, y positive *)
    assert (0 < 2 ^ (ex - Z.min ex ey)) by (apply Z.pow_pos_nonneg; lia).
    assert (0 < 2 ^ (ey - Z.min ex ey)) by (apply Z.pow_pos_nonneg; lia).
    nia.
  - (* both positive: x < y *)
    destruct (Z.compare_spec ex ey) as [E|E|E]; try discriminate H.
    + subst. rewrite Z.min_id, Z.sub_diag, !Z.mul_1_r.
      rewrite Pos.compare_cont_spec in H. cbn [Pos.switch_Eq] in H.
      destruct (Pos.compare_spec mx my); cbn in H; try discriminate H; lia.
    + rewrite Z.min_l by lia. rewrite Z.sub_diag, Z.mul_1_r.
      pose proof (larger_exponent_larger_magnitude _ _ _ _ _ _ Vx Vy E). lia.
Qed.

Lemma SFdiv_nan_or_negative (x y : spec_float) :
  signed true x -> not_negative y -> SFeqb y (S754_zero false) = false ->
  nan_or_negative (SF64div x y).
Proof.
  unfold nan_or_negative.
  destruct x as [sx|sx| |sx mx ex], y as [sy|sy| |sy my ey];
    unfold SF64div, SFdiv; cbn [signed not_negative];
    intros Hx Hy Hz; subst; try contradiction; try discriminate Hz;
    try (left; reflexivity); try (right; reflexivity).
  right.
  pose proof (SFdiv_core_binary_nonneg mx my ex ey) as Q.
  destruct (SFdiv_core_binary prec emax (Zpos mx) ex (Zpos my) ey)
    as [[mz ez] lz]. cbn [fst] in Q.
  apply binary_round_aux_signed. exact Q.
Qed.

Lemma Prim2SF_thousand_finite :
  Prim2SF 1000 = S754_finite false 8796093022208000 (-43).
Proof. reflexivity. Qed.

Lemma ltb_SFltb (x y : float) :
  PrimFloat.ltb x y = true -> SFltb (Prim2SF x) (Prim2SF y) = true.
Proof. rewrite ltb_spec. auto. Qed.

(** The concentration of a filter that lost mass. *)
Lemma mass_loss_concentration
    (initial_mass final_mass flow_rate start_time stop_time : float) :
  PrimFloat.ltb 0 flow_rate = true ->
  PrimFloat.ltb start_time stop_time = true ->
  PrimFloat.ltb final_mass initial_mass = true ->
  match binary64.calculate_pm25_concentration initial_mass final_mass
          flow_rate start_time stop_time with
  | Ok r => nan_or_negative (Prim2SF r)
  | Raise e => e = ZeroDivisionError
  end.
Proof.
  intros Hf Ht Hm. rewrite (calculate_pm25_concentration_past_guard _ _ _ _ _ Hf Ht). cbv zeta.
  destruct (ltb_not_leb _ _ Ht) as [_ Lt].
  assert (T : not_negative (Prim2SF (stop_time - start_time))).
  { rewrite sub_spec. apply SFsub_not_negative;
      [apply Prim2SF_valid | apply Prim2SF_valid | exact Lt]. }
  assert (D : signed true (Prim2SF (final_mass - initial_mass))).
  { rewrite sub_spec. apply SFsub_signed;
      [apply Prim2SF_valid | apply Prim2SF_valid | apply ltb_SFltb, Hm]. }
  set (volume_m3 := (flow_rate * (stop_time - start_time) / 1000)%float).
  assert (V : not_negative (Prim2SF volume_m3)).
  { unfold volume_m3. rewrite div_spec. apply SFdiv_not_negative;
      [| apply above_zero_not_negative, Prim2SF_thousand | reflexivity].
    rewrite mul_spec. apply SFmul_not_negative;
      [apply ltb_zero_above_zero, Hf | exact T]. }
  destruct (PrimFloat.eqb volume_m3 0) eqn:E; [reflexivity|].
  rewrite eqb_spec, Prim2SF_zero in E.
  rewrite mul_spec, div_spec, Prim2SF_thousand_finite.
  destruct (SFdiv_nan_or_negative _ _ D V E) as [-> | S].
  - left. reflexivity.
  - right. apply SFmul_signed, S.
Qed.

(** X13.  On numeric input that passes the validation, that is with
    [flow_rate > 0] and [stop_time > start_time], the handler first warns
    exactly when the final mass is below the initial mass.  Then either
    both calculations return, and it stores the concentration, its index
    and the category of that index, sets the colour bar to the same index,
    category and colour and opens nothing else; or a calculation raises,
    and it opens one error popup and leaves the stored values and the
    colour bar as they were. *)
Theorem handler_on_valid_measurement
    (str : exn -> string) (self : main.AQIApp)
    (flow_rate initial_mass final_mass start_time stop_time : float) :
  PrimFloat.ltb 0 flow_rate = true ->
  PrimFloat.ltb start_time stop_time = true ->
  let warning :=
    if PrimFloat.ltb final_mass initial_mass then [mass_loss_warning]
    else [] in
  (exists conc aqi,
     binary64.calculate_pm25_concentration initial_mass final_mass
       flow_rate start_time stop_time = Ok conc /\
     binary64.calculate_aqi conc = Ok aqi /\
     main.calculate_aqi str self flow_rate initial_mass final_mass
       start_time stop_time
     = (main.mk_AQIApp
          (main.mk_AQIColorBar aqi
             (fst (aqi_calculator.get_aqi_category aqi))
             (snd (aqi_calculator.get_aqi_category aqi)))
          (Some conc) (Some aqi)
          (Some (fst (aqi_calculator.get_aqi_category aqi))),
        warning))
  \/
  (exists e p,
     main.calculation flow_rate initial_mass final_mass start_time stop_time
       = Raise e /\
     error_popup p /\
     main.calculate_aqi str self flow_rate initial_mass final_mass
       start_time stop_time = (self, warning ++ [p])).
Proof.
  intros Hf Ht warning. unfold main.calculate_aqi.
  rewrite (ltb_zero_not_leb _ Hf).
  destruct (ltb_not_leb _ _ Ht) as [-> _].
  fold mass_loss_warning. fold warning.
  unfold main.calculation.
  destruct (binary64.calculate_pm25_concentration initial_mass final_mass
              flow_rate start_time stop_time) as [conc|e] eqn:C; cbn [bind].
  - destruct (binary64.calculate_aqi conc) as [aqi|e] eqn:A; cbn [bind].
    + left. exists conc, aqi. split; [reflexivity|]. split; [exact A|].
      unfold main.update_aqi.
      destruct (aqi_calculator.get_aqi_category aqi) as [category color].
      reflexivity.
    + right. exists e.
      destruct e; eexists; (split; [reflexivity|]); split;
        try reflexivity; reflexivity.
  - right. exists e.
    destruct e; eexists; (split; [reflexivity|]); split;
      try reflexivity; reflexivity.
Qed.

Lemma handler_on_valid_measurement_witness :
  let self := main.mk_AQIApp main.AQIColorBar_init None None None in
  let str := fun _ : exn => EmptyString in
  let warning :=
    if PrimFloat.ltb 102.5 100 then [mass_loss_warning] else [] in
  (exists conc aqi,
     binary64.calculate_pm25_concentration 100 102.5 16.7 0 1440 = Ok conc /\
     binary64.calculate_aqi conc = Ok aqi /\
     main.calculate_aqi str self 16.7 100 102.5 0 1440
     = (main.mk_AQIApp
          (main.mk_AQIColorBar aqi
             (fst (aqi_calculator.get_aqi_category aqi))
             (snd (aqi_calculator.get_aqi_category aqi)))
          (Some conc) (Some aqi)
          (Some (fst (aqi_calculator.get_aqi_category aqi))),
        warning))
  \/
  (exists e p,
     main.calculation 16.7 100 102.5 0 1440 = Raise e /\
     error_popup p /\
     main.calculate_aqi str self 16.7 100 102.5 0 1440
     = (self, warning ++ [p])).
Proof.
  intros self str.
  apply (handler_on_valid_measurement str self 16.7 100 102.5 0 1440);
    reflexivity.
Defined.

(** X14.  A measurement whose filter lost mass, otherwise valid, is not
    rejected: the handler opens the warning, and then either stores a
    concentration that is not above zero and shows index 0, category Good
    and the green bar, or, where a calculation raises, opens one error
    popup and leaves the application as it was. *)
Theorem handler_on_mass_loss
    (str : exn -> string) (self : main.AQIApp)
    (flow_rate initial_mass final_mass start_time stop_time : float) :
  PrimFloat.ltb 0 flow_rate = true ->
  PrimFloat.ltb start_time stop_time = true ->
  PrimFloat.ltb final_mass initial_mass = true ->
  (exists conc,
     PrimFloat.ltb 0 conc = false /\
     main.calculate_aqi str self flow_rate initial_mass final_mass
       start_time stop_time
     = (main.mk_AQIApp
          (main.mk_AQIColorBar 0 "Good" (0, 1, 0, 1)%Q)
          (Some conc) (Some 0) (Some "Good"%string),
        [mass_loss_warning]))
  \/
  (exists p,
     error_popup p /\
     main.calculate_aqi str self flow_rate initial_mass final_mass
       start_time stop_time = (self, [mass_loss_warning; p])).
Proof.
  intros Hf Ht Hm.
  pose proof (mass_loss_concentration _ _ _ _ _ Hf Ht Hm) as C.
  unfold main.calculate_aqi.
  rewrite (ltb_zero_not_leb _ Hf).
  destruct (ltb_not_leb _ _ Ht) as [-> _]. rewrite Hm.
  fold mass_loss_warning. unfold main.calculation.
  destruct (binary64.calculate_pm25_concentration initial_mass final_mass
              flow_rate start_time stop_time) as [conc|e]; cbn [bind].
  - destruct C as [N|S].
    + rewrite (calculate_aqi_nan _ N). cbn [bind].
      right. eexists. split; [|reflexivity]. reflexivity.
    + destruct (calculate_aqi_signed _ S) as [-> | ->]; cbn [bind].
      * left. exists conc. split; [|reflexivity].
        rewrite ltb_spec, Prim2SF_zero. unfold SFltb.
        destruct (Prim2SF conc) as [s|s| |s m e]; cbn [signed] in S; subst;
          try contradiction; reflexivity.
      * right. eexists. split; [|reflexivity]. reflexivity.
  - subst e. right. eexists. split; [|reflexivity]. reflexivity.
Qed.

Lemma handler_on_mass_loss_witness :
  let self := main.mk_AQIApp main.AQIColorBar_init None None None in
  let str := fun _ : exn => EmptyString in
  (exists conc,
     PrimFloat.ltb 0 conc = false /\
     main.calculate_aqi str self 1 100 99 0 1
     = (main.mk_AQIApp
          (main.mk_AQIColorBar 0 "Good" (0, 1, 0, 1)%Q)
          (Some conc) (Some 0) (Some "Good"%string),
        [mass_loss_warning]))
  \/
  (exists p,
     error_popup p /\
     main.calculate_aqi str self 1 100 99 0 1
     = (self, [mass_loss_warning; p])).
Proof.
  intros self str.
  apply (handler_on_mass_loss str self 1 100 99 0 1); reflexivity.
Defined.
